(** * Orthanc Explorer 2 plugin: a shallow embedding of [Plugin/Plugin.cpp]

    The development follows the source file top-down:
    - the JsonCpp values the plugin manipulates and [MergeJson];
    - the framework services the plugin calls (MIME detection, variable
      substitution, URI splitting) as an interface;
    - the embedded resource store and the host (configuration store and
      plugin registry);
    - the request handlers [ServeEmbeddedFolder], [ServeEmbeddedFile],
      [RedirectRoot], [GetOE2Configuration] with [GetPluginsConfiguration];
    - [ReadConfiguration] and [OrthancPluginInitialize] over the plugin's
      global variables.
    The theorems come after all the definitions. *)

From Stdlib Require Import Ascii String.
From stdpp Require Import gmap strings list fin_maps pretty.

Open Scope string_scope.
Open Scope Z_scope.

#[local] Set Warnings "-register-all".

(** ** JsonCpp values *)

Module Json.

(** [Json::ValueType]. *)
Inductive ValueType :=
| nullValue | intValue | uintValue | realValue
| stringValue | booleanValue | arrayValue | objectValue.

#[global] Instance ValueType_eq_dec : EqDecision ValueType.
Proof. solve_decision. Defined.

(** [Json::Value].  An integer leaf carries its value, a real leaf the 64
    bits of its binary64 representation.  An object is a [std::map] from
    member names to values: names are unique and two objects with the same
    members are the same object, which is what [gmap] provides. *)
Inductive Value :=
| JNull
| JInt (i : Z)
| JUInt (u : Z)
| JReal (bits : Z)
| JString (s : string)
| JBool (b : bool)
| JArray (l : list Value)
| JObject (m : gmap string Value).

Definition type (v : Value) : ValueType :=
  match v with
  | JNull => nullValue
  | JInt _ => intValue
  | JUInt _ => uintValue
  | JReal _ => realValue
  | JString _ => stringValue
  | JBool _ => booleanValue
  | JArray _ => arrayValue
  | JObject _ => objectValue
  end.

Definition isNull (v : Value) : bool := bool_decide (type v = nullValue).
Definition isObject (v : Value) : bool := bool_decide (type v = objectValue).

(** [explicit operator bool() const]: JsonCpp returns [!isNull()]. *)
Definition to_bool (v : Value) : bool := negb (isNull v).

(** Reading a member of an object, [obj[key]]: the null value when the
    member is missing. *)
Definition member (m : gmap string Value) (key : string) : Value :=
  default JNull (m !! key).

(** The non-const [operator[]] first creates a missing member, as null. *)
Definition touch (key : string) (m : gmap string Value) : gmap string Value :=
  match m !! key with
  | Some _ => m
  | None => <[key := JNull]> m
  end.

(** The const [operator[](key)] on any value: null and objects can be
    indexed, every other type fails JsonCpp's assertion (an exception). *)
Definition subscript (v : Value) (key : string) : option Value :=
  match v with
  | JNull => Some JNull
  | JObject m => Some (member m key)
  | _ => None
  end.

(** The non-const [operator[](key)] on any value: the member, and the value
    itself afterwards.  A null value becomes an object and a missing member
    is created, as null. *)
Definition index (v : Value) (key : string) : option (Value * Value) :=
  match v with
  | JNull => Some (JNull, JObject {[ key := JNull ]})
  | JObject m => Some (member m key, JObject (touch key m))
  | _ => None
  end.

(** [isMember(key)]: same domain as [subscript]. *)
Definition isMember (v : Value) (key : string) : option bool :=
  match v with
  | JNull => Some false
  | JObject m => Some (bool_decide (is_Some (m !! key)))
  | _ => None
  end.

(** Classification of a binary64 bit pattern, for [asBool] on reals. *)
Definition real_exponent (bits : Z) : Z := Z.land (Z.shiftr bits 52) 2047.
Definition real_mantissa (bits : Z) : Z := Z.land bits (Z.ones 52).
Definition real_is_zero (bits : Z) : bool :=
  (real_exponent bits =? 0) && (real_mantissa bits =? 0).
Definition real_is_nan (bits : Z) : bool :=
  (real_exponent bits =? 2047) && negb (real_mantissa bits =? 0).

(** [asBool()]: strings, arrays and objects are not convertible. *)
Definition asBool (v : Value) : option bool :=
  match v with
  | JNull => Some false
  | JBool b => Some b
  | JInt i => Some (negb (i =? 0))
  | JUInt u => Some (negb (u =? 0))
  | JReal bits => Some (negb (real_is_zero bits) && negb (real_is_nan bits))
  | JString _ | JArray _ | JObject _ => None
  end.

(** [asString()], given JsonCpp's rendering of a double: arrays and objects
    are not convertible. *)
Definition asString (valueToString : Z → string) (v : Value) : option string :=
  match v with
  | JNull => Some ""
  | JString s => Some s
  | JBool b => Some (if b then "true" else "false")
  | JInt i => Some (pretty i)
  | JUInt u => Some (pretty u)
  | JReal bits => Some (valueToString bits)
  | JArray _ | JObject _ => None
  end.

(** A key path through nested objects. *)
Fixpoint get_path (p : list string) (v : Value) : option Value :=
  match p with
  | [] => Some v
  | key :: p' =>
      match v with
      | JObject m => m !! key ≫= get_path p'
      | _ => None
      end
  end.

(** Number of constructors of a value; the measure for induction. *)
Fixpoint weight (v : Value) : nat :=
  match v with
  | JArray l => S (foldr (λ x n, weight x + n)%nat 0%nat l)
  | JObject m => S (map_fold (λ _ x n, weight x + n)%nat 0%nat m)
  | _ => 1%nat
  end.

End Json.

Import Json.
Abbreviation json := Json.Value.

(** ** MergeJson (Plugin.cpp, lines 114-136)

    [a] is updated in place in the source; here the updated value is
    returned.  The loop runs over the members of [b]; the value bound to
    [key] in the fold is [b[key]].  Each iteration reads and writes
    [a[key]] only, so the order of the iteration does not show in the
    result. *)
Fixpoint MergeJson (a b : json) {struct b} : json :=
  match b with
  | JObject mb =>
      match a with
      | JObject ma =>
          JObject
            (map_fold
               (λ (key : string) (bkey : json) (a : gmap string json),
                  let a := touch key a in
                  if negb (isNull (member a key))
                     && bool_decide (type (member a key) = objectValue)
                     && bool_decide (type bkey = objectValue)
                  then <[key := MergeJson (member a key) bkey]> a
                  else <[key := bkey]> a)
               ma mb)
      | _ => a
      end
  | _ => a
  end.

(** One iteration of the loop of [MergeJson], as a function of its own. *)
Definition MergeJson_step (key : string) (bkey : json)
    (a : gmap string json) : gmap string json :=
  let a := touch key a in
  if negb (isNull (member a key))
     && bool_decide (type (member a key) = objectValue)
     && bool_decide (type bkey = objectValue)
  then <[key := MergeJson (member a key) bkey]> a
  else <[key := bkey]> a.

(** What [MergeJson] leaves at [key] when [b] has the member [bkey] there
    and [a] has [oa]: the statement of the source's [if], used to state the
    theorems. *)
Definition merged_member (oa : option json) (bkey : json) : json :=
  match oa, bkey with
  | Some (JObject ma), JObject mb => MergeJson (JObject ma) (JObject mb)
  | _, _ => bkey
  end.

(** ** Strings

    [std::string] operations used by the plugin. *)

(** [s.substr(0, s.size() - 1)].  For the empty string the count wraps to
    the largest [size_t] and [substr] clamps it to the characters that are
    there, none: the result is the empty string, as with the truncated
    subtraction here. *)
Definition drop_last (s : string) : string :=
  String.substring 0 (String.length s - 1)%nat s.

(** [s[i]]; the character at [s.size()] is the terminating zero. *)
Definition char_at (s : string) (i : nat) : Ascii.ascii :=
  default Ascii.zero (String.get i s).

(** [Orthanc::Toolbox::StartsWith(str, prefix)]. *)
Definition StartsWith (str pre : string) : bool :=
  if (String.length str <? String.length pre)%nat then false
  else String.eqb (String.substring 0 (String.length pre) str) pre.

(** The suffix of [s] that starts at the last occurrence of [c]. *)
Fixpoint from_last (c : Ascii.ascii) (s : string) : option string :=
  match s with
  | EmptyString => None
  | String d r =>
      match from_last c r with
      | Some e => Some e
      | None => if Ascii.eqb d c then Some s else None
      end
  end.

(** The file name of a path, in the words of the specification: what
    follows the last separator. *)
Definition filename (path : string) : string :=
  match from_last "/"%char path with
  | Some (String _ r) => r
  | _ => path
  end.

(** The extension of a path: the suffix of its file name that starts at the
    last dot, empty when there is none. *)
Definition extension (path : string) : string :=
  default "" (from_last "."%char (filename path)).

(** The pieces of [s] between the occurrences of [c]. *)
Fixpoint split_on (c : Ascii.ascii) (s : string) : list string :=
  match s with
  | EmptyString => [""]
  | String d r =>
      let l := split_on c r in
      if Ascii.eqb d c then "" :: l
      else match l with
           | x :: l' => String d x :: l'
           | [] => [String d ""]
           end
  end.

(** ** Framework services

    The plugin calls into the Orthanc framework and into JsonCpp for
    services whose code is not part of the plugin.  They are an interface
    here; an exception of a service is the result [None]. *)
Class Framework := {
  (** JsonCpp's [valueToString(double)], on the bits of the double. *)
  valueToString : Z → string;
  (** [Json::Value::toStyledString()]. *)
  toStyledString : json → string;
  (** [Orthanc::MimeType] and the three values the plugin names. *)
  MimeType : Type;
  MimeType_eq_dec :: EqDecision MimeType;
  MimeType_JavaScript : MimeType;
  MimeType_Html : MimeType;
  MimeType_Ico : MimeType;
  (** [Orthanc::SystemToolbox::AutodetectMimeType(path)]. *)
  AutodetectMimeType : string → MimeType;
  (** [Orthanc::EnumerationToString(mime)]. *)
  EnumerationToString : MimeType → string;
  (** [Orthanc::Toolbox::SubstituteVariables(source, dictionary)]. *)
  SubstituteVariables : string → gmap string string → option string;
  (** [Orthanc::Toolbox::SplitUriComponents(components, uri)]. *)
  SplitUriComponents : string → option (list string);
}.

(** ** The embedded resources *)

Inductive DirectoryResourceId := WEB_APPLICATION_ASSETS.

Inductive FileResourceId :=
| DEFAULT_CONFIGURATION | WEB_APPLICATION_INDEX | WEB_APPLICATION_FAVICON.

(** Modelled from the spec: the embedded resource store, whose generated
    code ([EmbeddedResources.h]) is not in the source tree.  "A compiled-in,
    read-only mapping from logical resource identifiers to byte content
    [...] with two lookups: by directory+relative path, and by single file
    identifier".  The default configuration document is kept as the JSON
    value that [ReadJsonWithoutComments] reads from it (null when it does
    not parse). *)
Record EmbeddedResources := {
  directory_resources : DirectoryResourceId → gmap string string;
  file_resources : FileResourceId → string;
  default_configuration : json;
}.

(** Modelled from the spec: [GetDirectoryResource], absent from the source
    tree.  "Fetch bytes from the resource store [...] a missing resource
    yields an empty body, not an error". *)
Definition GetDirectoryResource (store : EmbeddedResources)
    (folder : DirectoryResourceId) (path : string) : string :=
  default "" (directory_resources store folder !! path).

(** Modelled from the spec: [GetFileResource], absent from the source tree;
    the lookup "by single file identifier". *)
Definition GetFileResource (store : EmbeddedResources)
    (file : FileResourceId) : string :=
  file_resources store file.

(** ** The host *)

(** Modelled from the spec: the host as the plugin consumes it through
    [OrthancPluginCppWrapper], absent from the source tree.  "Query list of
    loaded plugin names; query a given plugin's info record (including
    optional RootUri); query whether a named configuration section exists
    and read boolean/string values from it".  [host_rest_get uri] is the
    JSON answer of the host to a GET on its own REST API, [None] when the
    call fails. *)
Record Host := {
  host_version_ok : bool;
  host_configuration : gmap string json;
  host_rest_get : string → option json;
}.

(** Modelled from the spec: [OrthancConfiguration::IsSection].  A section is
    an object-valued member of the configuration. *)
Definition IsSection (configuration : gmap string json) (key : string) : bool :=
  match configuration !! key with
  | Some (JObject _) => true
  | _ => false
  end.

(** Modelled from the spec: [OrthancConfiguration::GetSection]. *)
Definition GetSection (configuration : gmap string json) (key : string)
    : gmap string json :=
  match configuration !! key with
  | Some (JObject section) => section
  | _ => ∅
  end.

(** Modelled from the spec: a configuration value is truthy when it is a
    "non-empty/true value". *)
Definition truthy (v : json) : bool :=
  match v with
  | JNull => false
  | JBool b => b
  | JInt i => negb (i =? 0)
  | JUInt u => negb (u =? 0)
  | JReal bits => negb (real_is_zero bits) && negb (real_is_nan bits)
  | JString s => negb (String.eqb s "")
  | JArray l => negb (bool_decide (length l = 0%nat))
  | JObject m => negb (bool_decide (base.size m = 0%nat))
  end.

(** Modelled from the spec: [OrthancConfiguration::GetBooleanValue(key,
    defaultValue)]: the truth value of the key, the default when the key is
    absent. *)
Definition GetBooleanValue (section : gmap string json) (key : string)
    (defaultValue : bool) : bool :=
  match section !! key with
  | Some v => truthy v
  | None => defaultValue
  end.

(** Modelled from the spec: [OrthancPlugins::RestApiGet(result, uri,
    false)].  [result] is left as it was, null, when the call fails. *)
Definition RestApiGet (host : Host) (uri : string) : json :=
  default JNull (host_rest_get host uri).

(** ** The plugin's global variables and what the host records for it

    [orthancFullConfiguration_] is a pointer in the source; it is set by
    [ReadConfiguration] before any handler is registered.  The log calls of
    the source write to the host's log and change neither this state nor
    any result: they are left out. *)

Inductive RestCallback :=
| ServeEmbeddedFolder_callback (folder : DirectoryResourceId)
| ServeEmbeddedFile_callback (file : FileResourceId) (mime : string)
| GetOE2Configuration_callback
| RedirectRoot_callback.

Record Plugin := {
  orthancFullConfiguration_ : gmap string json;
  pluginConfiguration_ : gmap string json;
  pluginJsonConfiguration_ : json;
  oe2BaseUrl_ : string;
  (** registered with the host, most recent first *)
  restCallbacks : list (string * RestCallback);
  rootUri : option string;
  description : option string;
}.

Definition unloaded : Plugin :=
  {| orthancFullConfiguration_ := ∅; pluginConfiguration_ := ∅;
     pluginJsonConfiguration_ := JNull; oe2BaseUrl_ := "";
     restCallbacks := []; rootUri := None; description := None |}.

Definition set_orthancFullConfiguration (x : gmap string json) (p : Plugin) :=
  {| orthancFullConfiguration_ := x;
     pluginConfiguration_ := pluginConfiguration_ p;
     pluginJsonConfiguration_ := pluginJsonConfiguration_ p;
     oe2BaseUrl_ := oe2BaseUrl_ p; restCallbacks := restCallbacks p;
     rootUri := rootUri p; description := description p |}.

Definition set_pluginConfiguration (x : gmap string json) (p : Plugin) :=
  {| orthancFullConfiguration_ := orthancFullConfiguration_ p;
     pluginConfiguration_ := x;
     pluginJsonConfiguration_ := pluginJsonConfiguration_ p;
     oe2BaseUrl_ := oe2BaseUrl_ p; restCallbacks := restCallbacks p;
     rootUri := rootUri p; description := description p |}.

Definition set_pluginJsonConfiguration (x : json) (p : Plugin) :=
  {| orthancFullConfiguration_ := orthancFullConfiguration_ p;
     pluginConfiguration_ := pluginConfiguration_ p;
     pluginJsonConfiguration_ := x;
     oe2BaseUrl_ := oe2BaseUrl_ p; restCallbacks := restCallbacks p;
     rootUri := rootUri p; description := description p |}.

Definition set_oe2BaseUrl (x : string) (p : Plugin) :=
  {| orthancFullConfiguration_ := orthancFullConfiguration_ p;
     pluginConfiguration_ := pluginConfiguration_ p;
     pluginJsonConfiguration_ := pluginJsonConfiguration_ p;
     oe2BaseUrl_ := x; restCallbacks := restCallbacks p;
     rootUri := rootUri p; description := description p |}.

Definition add_restCallback (uri : string) (c : RestCallback) (p : Plugin) :=
  {| orthancFullConfiguration_ := orthancFullConfiguration_ p;
     pluginConfiguration_ := pluginConfiguration_ p;
     pluginJsonConfiguration_ := pluginJsonConfiguration_ p;
     oe2BaseUrl_ := oe2BaseUrl_ p;
     restCallbacks := (uri, c) :: restCallbacks p;
     rootUri := rootUri p; description := description p |}.

Definition set_rootUri (x : string) (p : Plugin) :=
  {| orthancFullConfiguration_ := orthancFullConfiguration_ p;
     pluginConfiguration_ := pluginConfiguration_ p;
     pluginJsonConfiguration_ := pluginJsonConfiguration_ p;
     oe2BaseUrl_ := oe2BaseUrl_ p; restCallbacks := restCallbacks p;
     rootUri := Some x; description := description p |}.

Definition set_description (x : string) (p : Plugin) :=
  {| orthancFullConfiguration_ := orthancFullConfiguration_ p;
     pluginConfiguration_ := pluginConfiguration_ p;
     pluginJsonConfiguration_ := pluginJsonConfiguration_ p;
     oe2BaseUrl_ := oe2BaseUrl_ p; restCallbacks := restCallbacks p;
     rootUri := rootUri p; description := Some x |}.

(** ** Requests and answers *)

Inductive OrthancPluginHttpMethod :=
| OrthancPluginHttpMethod_Get | OrthancPluginHttpMethod_Post
| OrthancPluginHttpMethod_Put | OrthancPluginHttpMethod_Delete.

#[global] Instance OrthancPluginHttpMethod_eq_dec :
  EqDecision OrthancPluginHttpMethod.
Proof. solve_decision. Defined.

(** [groups] are the strings captured by the groups of the route. *)
Record OrthancPluginHttpRequest := {
  method : OrthancPluginHttpMethod;
  groups : list string;
}.

(** The call a handler makes on its [OrthancPluginRestOutput]. *)
Inductive Answer :=
| SendMethodNotAllowed (allowedMethods : string)
| AnswerBuffer (body : string) (mimeType : string)
| Redirect (redirection : string).

(** The HTTP status the host sends for each of these calls. *)
Definition http_status (a : Answer) : Z :=
  match a with
  | SendMethodNotAllowed _ => 405
  | AnswerBuffer _ _ => 200
  | Redirect _ => 301
  end.

Definition http_body (a : Answer) : string :=
  match a with
  | AnswerBuffer body _ => body
  | _ => ""
  end.

Section handlers.
Context `{Framework}.

(** ** ServeEmbeddedFolder (lines 34-74) *)

(** The dictionary built at lines 55-58. *)
Definition substitution_dictionary (oe2BaseUrl : string) : gmap string string :=
  <["OE2_API_BASE_URL" := drop_last oe2BaseUrl +:+ "/api/"]>
    (<["OE2_BASE_URL" := drop_last oe2BaseUrl +:+ "/app"]>
       (<["ORTHANC_API_BASE_URL" := "/"]> ∅)).

(** The test of line 54. *)
Definition is_index_script (mimeType : MimeType) (path : string) : bool :=
  bool_decide (mimeType = MimeType_JavaScript) && StartsWith path "/index.".

(** Lines 60-68: the content is replaced when the substitution succeeds and
    kept when it throws. *)
Definition substitute (oe2BaseUrl fileContent : string) : string :=
  match SubstituteVariables fileContent (substitution_dictionary oe2BaseUrl) with
  | Some replacedString => replacedString
  | None => fileContent
  end.

Definition ServeEmbeddedFolder (store : EmbeddedResources) (plugin : Plugin)
    (folder : DirectoryResourceId) (request : OrthancPluginHttpRequest)
    : Answer :=
  if bool_decide (method request ≠ OrthancPluginHttpMethod_Get)
  then SendMethodNotAllowed "GET"
  else
    let path := "/" +:+ default "" (groups request !! 0%nat) in
    let mimeType := AutodetectMimeType path in
    let mime := EnumerationToString mimeType in
    let fileContent := GetDirectoryResource store folder path in
    let fileContent :=
      if is_index_script mimeType path
      then substitute (oe2BaseUrl_ plugin) fileContent
      else fileContent in
    AnswerBuffer fileContent mime.

(** ** ServeEmbeddedFile (lines 76-95) *)
Definition ServeEmbeddedFile (store : EmbeddedResources)
    (file : FileResourceId) (mime : MimeType)
    (request : OrthancPluginHttpRequest) : Answer :=
  if bool_decide (method request ≠ OrthancPluginHttpMethod_Get)
  then SendMethodNotAllowed "GET"
  else AnswerBuffer (GetFileResource store file) (EnumerationToString mime).

(** ** RedirectRoot (lines 97-112) *)
Definition RedirectRoot (plugin : Plugin)
    (request : OrthancPluginHttpRequest) : Answer :=
  if bool_decide (method request ≠ OrthancPluginHttpMethod_Get)
  then SendMethodNotAllowed "GET"
  else Redirect (oe2BaseUrl_ plugin +:+ "app/").

(** ** GetPluginConfiguration (lines 159-171)

    The section is the out-parameter of the source, [None] is the result
    [false]. *)
Definition GetPluginConfiguration (plugin : Plugin) (sectionName : string)
    : option json :=
  if IsSection (orthancFullConfiguration_ plugin) sectionName
  then Some (JObject (GetSection (orthancFullConfiguration_ plugin) sectionName))
  else None.

(** ** IsPluginEnabledInConfiguration (lines 174-185) *)
Definition IsPluginEnabledInConfiguration (plugin : Plugin)
    (sectionName enableValueName : string) : bool :=
  if IsSection (orthancFullConfiguration_ plugin) sectionName
  then GetBooleanValue (GetSection (orthancFullConfiguration_ plugin) sectionName)
         enableValueName false
  else false.

(** ** GetPluginInfo (lines 187-194) *)
Definition GetPluginInfo (host : Host) (pluginName : string) : json :=
  RestApiGet host ("/plugins/" +:+ pluginName).

(** ** GetPluginsConfiguration (lines 196-312) *)

(** Lines 203-207. *)
Definition pluginUriPrefix (components : list string) : string :=
  Nat.iter (length components) (λ pre, pre +:+ "../") "".

(** [v[key] = x] on a non-const value: a null value becomes an object. *)
Definition assign (v : json) (key : string) (x : json) : option json :=
  match v with
  | JNull => Some (JObject {[ key := x ]})
  | JObject m => Some (JObject (<[key := x]> m))
  | _ => None
  end.

(** [pluginList[i]] for [i] below [pluginList.size()], in order.  An object
    has a size but cannot be indexed by position. *)
Definition elements (pluginList : json) : option (list json) :=
  match pluginList with
  | JArray l => Some l
  | JObject m => if bool_decide (base.size m = 0%nat) then Some [] else None
  | _ => Some []
  end.

(** Lines 223-226. *)
Definition rewrite_RootUri (pre : string) (pluginInfo : json) : option json :=
  match isMember pluginInfo "RootUri" with
  | None => None
  | Some false => Some pluginInfo
  | Some true =>
      uri ← (subscript pluginInfo "RootUri" ≫= asString valueToString);
      if (0 <? String.length uri)%nat
      then assign pluginInfo "RootUri" (JString (pre +:+ uri))
      else Some pluginInfo
  end.

(** Lines 231-306: the value a branch of the chain assigns to ["Enabled"],
    [None] when the name matches no branch. *)
Definition enabled_override (plugin : Plugin) (pluginName : string)
    : option bool :=
  if String.eqb pluginName "authorization" then
    Some (match GetPluginConfiguration plugin "Authorization" with
          | Some pluginConfiguration =>
              default false (isMember pluginConfiguration "WebService")
          | None => false
          end)
  else if String.eqb pluginName "connectivity-checks" then Some true
  else if String.eqb pluginName "dicom-web" then
    Some (IsPluginEnabledInConfiguration plugin "DicomWeb" "Enable")
  else if String.eqb pluginName "gdcm" then
    Some (IsPluginEnabledInConfiguration plugin "Gdcm" "Enable")
  else if String.eqb pluginName "mysql-index" then
    Some (IsPluginEnabledInConfiguration plugin "MySQL" "EnableIndex")
  else if String.eqb pluginName "mysql-storage" then
    Some (IsPluginEnabledInConfiguration plugin "MySQL" "EnableStorage")
  else if String.eqb pluginName "odbc-index" then
    Some (IsPluginEnabledInConfiguration plugin "PostgreSQL" "EnableIndex")
  else if String.eqb pluginName "odbc-storage" then
    Some (IsPluginEnabledInConfiguration plugin "PostgreSQL" "EnableStorage")
  else if String.eqb pluginName "postgresql-index" then
    Some (IsPluginEnabledInConfiguration plugin "Odbc" "EnableIndex")
  else if String.eqb pluginName "postgresql-storage" then
    Some (IsPluginEnabledInConfiguration plugin "Odbc" "EnableStorage")
  else if String.eqb pluginName "osimis-web-viewer" then
    Some (bool_decide (is_Some (GetPluginConfiguration plugin "WebViewer")))
  else if String.eqb pluginName "python" then
    Some (bool_decide (is_Some (GetPluginConfiguration plugin "PythonScript")))
  else if String.eqb pluginName "serve-folders" then
    Some (bool_decide (is_Some (GetPluginConfiguration plugin "ServeFolders")))
  else if String.eqb pluginName "stone-webviewer" then
    Some (bool_decide (is_Some (GetPluginConfiguration plugin "StoneWebViewer")))
  else if String.eqb pluginName "tcia" then
    Some (IsPluginEnabledInConfiguration plugin "Tcia" "Enable")
  else if String.eqb pluginName "transfers" then Some true
  else if String.eqb pluginName "web-viewer" then Some true
  else if String.eqb pluginName "worklists" then
    Some (IsPluginEnabledInConfiguration plugin "Worklists" "Enable")
  else if String.eqb pluginName "wsi" then Some true
  else None.

(** Lines 221-306 for one plugin: the record stored under its name. *)
Definition plugin_record (plugin : Plugin) (host : Host) (pre : string)
    (pluginName : string) : option json :=
  pluginInfo ← rewrite_RootUri pre (GetPluginInfo host pluginName);
  record ← assign pluginInfo "Enabled" (JBool true);
  match enabled_override plugin pluginName with
  | Some enabled => assign record "Enabled" (JBool enabled)
  | None => Some record
  end.

(** The body of the loop of lines 211-309. *)
Definition resolve_plugin (plugin : Plugin) (host : Host) (pre : string)
    (pluginsConfiguration : json) (element : json) : option json :=
  pluginName ← asString valueToString element;
  if String.eqb pluginName "explorer.js" then Some pluginsConfiguration
  else
    record ← plugin_record plugin host pre pluginName;
    assign pluginsConfiguration pluginName record.

(** The loop, from the state [pluginsConfiguration]. *)
Fixpoint resolve_plugins (plugin : Plugin) (host : Host) (pre : string)
    (pluginsConfiguration : json) (pluginList : list json) : option json :=
  match pluginList with
  | [] => Some pluginsConfiguration
  | element :: rest =>
      pluginsConfiguration ←
        resolve_plugin plugin host pre pluginsConfiguration element;
      resolve_plugins plugin host pre pluginsConfiguration rest
  end.

Definition GetPluginsConfiguration (plugin : Plugin) (host : Host)
    : option json :=
  components ← SplitUriComponents (oe2BaseUrl_ plugin);
  pluginList ← elements (RestApiGet host "/plugins");
  resolve_plugins plugin host (pluginUriPrefix components) JNull pluginList.

(** ** GetOE2Configuration (lines 315-334)

    [None] is an exception that leaves the handler.  The subscript on the
    global [pluginJsonConfiguration_] is the non-const one: the handler
    returns the global as the subscript leaves it. *)
Definition GetOE2Configuration (plugin : Plugin) (host : Host)
    (request : OrthancPluginHttpRequest) : option (Answer * Plugin) :=
  if bool_decide (method request ≠ OrthancPluginHttpMethod_Get)
  then Some (SendMethodNotAllowed "GET", plugin)
  else
    '(uiOptions, configuration) ← index (pluginJsonConfiguration_ plugin) "UiOptions";
    let plugin := set_pluginJsonConfiguration configuration plugin in
    oe2Configuration ← assign JNull "UiOptions" uiOptions;
    plugins ← GetPluginsConfiguration plugin host;
    oe2Configuration ← assign oe2Configuration "Plugins" plugins;
    Some (AnswerBuffer (toStyledString oe2Configuration) "application/json",
          plugin).

(** ** Initialization

    The statements of [ReadConfiguration] and [OrthancPluginInitialize]
    update the plugin's state and may throw; what was done before an
    exception stays done. *)

Inductive Exception :=
| OrthancException_InternalError
| Json_LogicError.

Definition Init (A : Type) : Type := Plugin → (Exception + A) * Plugin.

#[local] Instance Init_ret : MRet Init := λ A x plugin, (inr x, plugin).

#[local] Instance Init_bind : MBind Init := λ A B f m plugin,
  match m plugin with
  | (inl e, plugin') => (inl e, plugin')
  | (inr x, plugin') => f x plugin'
  end.

Definition throw {A} (e : Exception) : Init A := λ plugin, (inl e, plugin).

Definition update (f : Plugin → Plugin) : Init () := λ plugin, (inr (), f plugin).

Definition read {A} (f : Plugin → A) : Init A := λ plugin, (inr (f plugin), plugin).

(** A JsonCpp operation that fails its assertion throws. *)
Definition json_op {A} (r : option A) : Init A :=
  match r with
  | Some x => mret x
  | None => throw Json_LogicError
  end.

(** [pluginJsonConfiguration_[key]], the non-const subscript on the global. *)
Definition configuration_member (key : string) : Init json :=
  configuration ← read pluginJsonConfiguration_;
  '(v, configuration) ← json_op (index configuration key);
  update (set_pluginJsonConfiguration configuration);;
  mret v.

Definition RegisterRestCallback (uri : string) (callback : RestCallback)
    : Init () :=
  update (add_restCallback uri callback).

(** ** ReadConfiguration (lines 139-157) *)
Definition ReadConfiguration (host : Host) (store : EmbeddedResources)
    : Init () :=
  update (set_orthancFullConfiguration (host_configuration host));;
  '(section, _) ← json_op (index (default_configuration store) "OrthancExplorer2");
  update (set_pluginJsonConfiguration section);;
  full ← read orthancFullConfiguration_;
  if IsSection full "OrthancExplorer2" then
    update (set_pluginConfiguration (GetSection full "OrthancExplorer2"));;
    a ← read pluginJsonConfiguration_;
    b ← read pluginConfiguration_;
    update (set_pluginJsonConfiguration (MergeJson a (JObject b)))
  else mret ().

(** ** OrthancPluginInitialize (lines 348-441) *)

(** The test of lines 381-383. *)
Definition invalid_root (oe2BaseUrl : string) : bool :=
  (String.length oe2BaseUrl <? 1)%nat
  || negb (Ascii.eqb (char_at oe2BaseUrl 0) "/")
  || negb (Ascii.eqb (char_at oe2BaseUrl (String.length oe2BaseUrl - 1)) "/").

(** Lines 375-426, the body of the [try]. *)
Definition initialize (host : Host) (store : EmbeddedResources) : Init () :=
  ReadConfiguration host store;;
  enable ← configuration_member "Enable";
  if to_bool enable then
    root ← configuration_member "Root";
    root ← json_op (asString valueToString root);
    update (set_oe2BaseUrl root);;
    oe2BaseUrl ← read oe2BaseUrl_;
    (if invalid_root oe2BaseUrl
     then throw OrthancException_InternalError
     else mret ());;
    RegisterRestCallback (oe2BaseUrl +:+ "app/assets/(.*)")
      (ServeEmbeddedFolder_callback WEB_APPLICATION_ASSETS);;
    RegisterRestCallback (oe2BaseUrl +:+ "app/index.html")
      (ServeEmbeddedFile_callback WEB_APPLICATION_INDEX
         (EnumerationToString MimeType_Html));;
    RegisterRestCallback (oe2BaseUrl +:+ "app/favicon.ico")
      (ServeEmbeddedFile_callback WEB_APPLICATION_FAVICON
         (EnumerationToString MimeType_Ico));;
    RegisterRestCallback (oe2BaseUrl +:+ "app/(.*)")
      (ServeEmbeddedFile_callback WEB_APPLICATION_INDEX
         (EnumerationToString MimeType_Html));;
    RegisterRestCallback (oe2BaseUrl +:+ "app")
      (ServeEmbeddedFile_callback WEB_APPLICATION_INDEX
         (EnumerationToString MimeType_Html));;
    RegisterRestCallback (oe2BaseUrl +:+ "api/configuration")
      GetOE2Configuration_callback;;
    update (set_rootUri (oe2BaseUrl +:+ "app/"));;
    replace ← configuration_member "ReplaceDefaultExplorer";
    replace ← json_op (asBool replace);
    if replace : bool
    then RegisterRestCallback "/" RedirectRoot_callback
    else mret ()
  else mret ().

(** The return value, 0 or -1, and the state the plugin is left in. *)
Definition OrthancPluginInitialize (host : Host) (store : EmbeddedResources)
    (plugin : Plugin) : Z * Plugin :=
  if negb (host_version_ok host) then (-1, plugin)
  else
    let plugin := set_description "Advanced User Interface for Orthanc" plugin in
    match initialize host store plugin with
    | (inr _, plugin) => (0, plugin)
    | (inl _, plugin) => (-1, plugin)
    end.

End handlers.

(** ** The host's plugin registry, as the resolver expects it

    The list of plugins is an array of names; the information on a plugin is
    a record, or the query fails and leaves null; a ["RootUri"] is a value
    that [asString] converts. *)
Definition plugin_list (host : Host) (names : list string) : Prop :=
  RestApiGet host "/plugins" = JArray (JString <$> names).

Definition info_record (host : Host) (pluginName : string) : Prop :=
  match GetPluginInfo host pluginName with
  | JNull => True
  | JObject info =>
      match info !! "RootUri" with
      | Some (JArray _) | Some (JObject _) => False
      | _ => True
      end
  | _ => False
  end.

(** The branches of the chain of lines 231-306 that test a key of a
    section: plugin name, section, key.  The first one (lines 231-234) asks
    whether the section has the key; the others (lines 239-270, 287-290 and
    299-302) read the key as a boolean. *)
Definition section_key_rules : list (string * (string * string)) :=
  [ ("authorization", ("Authorization", "WebService"));
    ("dicom-web", ("DicomWeb", "Enable"));
    ("gdcm", ("Gdcm", "Enable"));
    ("mysql-index", ("MySQL", "EnableIndex"));
    ("mysql-storage", ("MySQL", "EnableStorage"));
    ("odbc-index", ("PostgreSQL", "EnableIndex"));
    ("odbc-storage", ("PostgreSQL", "EnableStorage"));
    ("postgresql-index", ("Odbc", "EnableIndex"));
    ("postgresql-storage", ("Odbc", "EnableStorage"));
    ("tcia", ("Tcia", "Enable"));
    ("worklists", ("Worklists", "Enable")) ].

(** All the names the chain tests. *)
Definition override_table : list string :=
  [ "authorization"; "connectivity-checks"; "dicom-web"; "gdcm";
    "mysql-index"; "mysql-storage"; "odbc-index"; "odbc-storage";
    "postgresql-index"; "postgresql-storage"; "osimis-web-viewer"; "python";
    "serve-folders"; "stone-webviewer"; "tcia"; "transfers"; "web-viewer";
    "worklists"; "wsi" ].

(** [n] parent-path tokens. *)
Fixpoint parent_tokens (n : nat) : string :=
  match n with
  | O => ""
  | S n' => "../" +:+ parent_tokens n'
  end.

(** ** Notions used to state the theorems on initialization *)

(** The configuration that [ReadConfiguration] leaves in
    [pluginJsonConfiguration_], as a function of the host and of the
    embedded default document; [None] when reading throws. *)
Definition effective_configuration (host : Host) (store : EmbeddedResources)
    : option json :=
  '(section, _) ← index (default_configuration store) "OrthancExplorer2";
  Some (if IsSection (host_configuration host) "OrthancExplorer2"
        then MergeJson section
               (JObject (GetSection (host_configuration host) "OrthancExplorer2"))
        else section).

(** The first and the last character of a string. *)
Definition first_char (s : string) : option Ascii.ascii :=
  match s with
  | EmptyString => None
  | String c _ => Some c
  end.

Fixpoint last_char (s : string) : option Ascii.ascii :=
  match s with
  | EmptyString => None
  | String c EmptyString => Some c
  | String _ r => last_char r
  end.

Definition starts_with_separator (s : string) : Prop :=
  ∃ rest, s = "/" +:+ rest.

Definition ends_with_separator (s : string) : Prop :=
  ∃ front, s = front +:+ "/".

(** The routes of lines 394-412, in the order of their registration. *)
Definition routes `{Framework} (oe2BaseUrl : string)
    : list (string * RestCallback) :=
  [ (oe2BaseUrl +:+ "app/assets/(.*)",
     ServeEmbeddedFolder_callback WEB_APPLICATION_ASSETS);
    (oe2BaseUrl +:+ "app/index.html",
     ServeEmbeddedFile_callback WEB_APPLICATION_INDEX
       (EnumerationToString MimeType_Html));
    (oe2BaseUrl +:+ "app/favicon.ico",
     ServeEmbeddedFile_callback WEB_APPLICATION_FAVICON
       (EnumerationToString MimeType_Ico));
    (oe2BaseUrl +:+ "app/(.*)",
     ServeEmbeddedFile_callback WEB_APPLICATION_INDEX
       (EnumerationToString MimeType_Html));
    (oe2BaseUrl +:+ "app",
     ServeEmbeddedFile_callback WEB_APPLICATION_INDEX
       (EnumerationToString MimeType_Html));
    (oe2BaseUrl +:+ "api/configuration", GetOE2Configuration_callback) ].

(** Initialization accepts the base URL [root]: the plugin is left with
    [root] as its base URL and with its routes and its root URI registered
    under it. *)
Definition accepts `{Framework} (host : Host) (store : EmbeddedResources)
    (root : string) : Prop :=
  let plugin := snd (OrthancPluginInitialize host store unloaded) in
  oe2BaseUrl_ plugin = root
  ∧ rootUri plugin = Some (root +:+ "app/")
  ∧ ∃ more, restCallbacks plugin = (more ++ reverse (routes root))%list.

(** Initialization refuses to load: it returns -1 and has registered
    nothing. *)
Definition refuses `{Framework} (host : Host) (store : EmbeddedResources)
    : Prop :=
  let plugin := snd (OrthancPluginInitialize host store unloaded) in
  fst (OrthancPluginInitialize host store unloaded) = -1
  ∧ restCallbacks plugin = []
  ∧ rootUri plugin = None.

(** The reading of the test of line 54 that the specification gives: on
    the file name of the path instead of on the path. *)
Definition is_index_script_by_filename `{Framework}
    (mimeType : MimeType) (path : string) : bool :=
  bool_decide (mimeType = MimeType_JavaScript)
  && StartsWith (filename path) "index.".

(** The names of the tokens that lines 56-58 put in the dictionary. *)
Definition token_names : list string :=
  ["ORTHANC_API_BASE_URL"; "OE2_BASE_URL"; "OE2_API_BASE_URL"].

(** Modelled from the spec: "a small set of placeholder tokens are
    substituted with runtime-computed base URLs" and "token syntax is
    implementation-defined but must support at least three named tokens".
    The substitution is the framework's [SubstituteVariables], which is not
    under src/.  [token name] is the way a template writes the token of a
    name, and [plain] holds of a text in which the framework reads no
    token.  The framework honours this syntax when, in a template that
    starts with a plain text followed by the token of one of the three
    names, the plain text is kept, the token is replaced by the value that
    the dictionary gives to the name, and the substitution goes on in the
    rest of the template; it fails when it fails on the rest. *)
Definition honours `{Framework} (token : string → string)
    (plain : string → Prop) : Prop :=
  ∀ (dictionary : gmap string string) (name value pre post : string),
    name ∈ token_names →
    dictionary !! name = Some value →
    plain pre →
    SubstituteVariables (pre +:+ token name +:+ post) dictionary
    = (λ out, pre +:+ value +:+ out) <$> SubstituteVariables post dictionary.

(** ** A reference framework

    A small implementation of the interface, used to run the handlers on
    examples.  The rendering of numbers and of documents plays no part in
    the examples. *)

Inductive ReferenceMime :=
| Mime_Binary | Mime_Css | Mime_Html | Mime_Ico | Mime_JavaScript | Mime_Json.

#[global] Instance ReferenceMime_eq_dec : EqDecision ReferenceMime.
Proof. solve_decision. Defined.

(** Modelled from the spec: "auto-detect the MIME type from the file
    extension [...] (or default binary type if none)". *)
Definition reference_AutodetectMimeType (path : string) : ReferenceMime :=
  let e := extension path in
  if String.eqb e ".js" then Mime_JavaScript
  else if String.eqb e ".html" then Mime_Html
  else if String.eqb e ".css" then Mime_Css
  else if String.eqb e ".json" then Mime_Json
  else if String.eqb e ".ico" then Mime_Ico
  else Mime_Binary.

Definition reference_EnumerationToString (mime : ReferenceMime) : string :=
  match mime with
  | Mime_Binary => "application/octet-stream"
  | Mime_Css => "text/css"
  | Mime_Html => "text/html"
  | Mime_Ico => "image/x-icon"
  | Mime_JavaScript => "application/javascript"
  | Mime_Json => "application/json"
  end.

(** Modelled from the spec: "placeholder substitution [...] substitution
    failure (malformed template)".  A token is written [${NAME}]; a token
    whose name is in the dictionary is replaced by its value, any other
    token is kept, and a token that is not closed is a malformed template.
    [name] is the name being read, if any. *)
Fixpoint reference_substitute (dictionary : gmap string string)
    (name : option string) (source : string) : option string :=
  match source with
  | EmptyString =>
      match name with
      | None => Some ""
      | Some _ => None
      end
  | String c r =>
      match name with
      | Some n =>
          if Ascii.eqb c "}"
          then out ← reference_substitute dictionary None r;
               Some (default ("${" +:+ n +:+ "}") (dictionary !! n) +:+ out)
          else reference_substitute dictionary (Some (n +:+ String c "")) r
      | None =>
          match r with
          | String d r' =>
              if Ascii.eqb c "$" && Ascii.eqb d "{"
              then reference_substitute dictionary (Some "") r'
              else String c <$> reference_substitute dictionary None r
          | EmptyString => Some (String c "")
          end
      end
  end.

(** The token syntax of the reference substitution, and the texts in which
    it reads no token: those without the character that opens one. *)
Definition reference_token (name : string) : string :=
  "${" +:+ name +:+ "}".

Fixpoint free_of (c : Ascii.ascii) (s : string) : bool :=
  match s with
  | EmptyString => true
  | String d r => negb (Ascii.eqb d c) && free_of c r
  end.

Definition reference_plain (s : string) : Prop :=
  free_of "$" s = true.

(** Modelled from the spec: "number of path segments in this module's own
    base URL".  The segments are the non-empty pieces between separators;
    a URI that does not start with a separator is refused. *)
Definition reference_SplitUriComponents (uri : string) : option (list string) :=
  if StartsWith uri "/"
  then Some (filter (λ x, x ≠ "") (split_on "/" uri))
  else None.

#[global] Instance reference : Framework := {|
  valueToString := λ bits, pretty bits;
  toStyledString := λ v, pretty (Z.of_nat (weight v));
  MimeType := ReferenceMime;
  MimeType_JavaScript := Mime_JavaScript;
  MimeType_Html := Mime_Html;
  MimeType_Ico := Mime_Ico;
  AutodetectMimeType := reference_AutodetectMimeType;
  EnumerationToString := reference_EnumerationToString;
  SubstituteVariables := λ source dictionary,
    reference_substitute dictionary None source;
  SplitUriComponents := reference_SplitUriComponents;
|}.

(** The documents of the specification's merge scenario. *)
Definition sample_default : json :=
  JObject {[ "Root" := JString "/ui/"; "Enable" := JBool true;
             "UiOptions" := JObject {[ "a" := JInt 1 ]} ]}.
Definition sample_override : json :=
  JObject {[ "UiOptions" := JObject {[ "b" := JInt 2 ]} ]}.

(** An embedded store, a host and a loaded plugin for the examples. *)
Definition sample_store : EmbeddedResources :=
  {| directory_resources := λ _,
       {[ "/index.4f2a.js" := "fetch('${OE2_API_BASE_URL}configuration')";
          "/sub/index.js" := "const base = '${OE2_BASE_URL}';";
          "/style.css" := "body { margin: 0 }" ]};
     file_resources := λ file,
       match file with
       | DEFAULT_CONFIGURATION => "{ OrthancExplorer2 : { } }"
       | WEB_APPLICATION_INDEX => "<html></html>"
       | WEB_APPLICATION_FAVICON => "icon"
       end;
     default_configuration := JObject {[ "OrthancExplorer2" := sample_default ]} |}.

Definition sample_host : Host :=
  {| host_version_ok := true;
     host_configuration :=
       {[ "OrthancExplorer2" := sample_override;
          "DicomWeb" := JObject {[ "Enable" := JBool true ]};
          "Gdcm" := JObject {[ "Enable" := JBool false ]} ]};
     host_rest_get := λ uri,
       if String.eqb uri "/plugins" then
         Some (JArray [JString "dicom-web"; JString "explorer.js";
                       JString "gdcm"; JString "tcia"; JString "my-plugin"])
       else if String.eqb uri "/plugins/dicom-web" then
         Some (JObject {[ "ID" := JString "dicom-web";
                          "RootUri" := JString "../dicom-web/app/client/index.html" ]})
       else if String.eqb uri "/plugins/gdcm" then
         Some (JObject {[ "ID" := JString "gdcm"; "RootUri" := JString "" ]})
       else if String.eqb uri "/plugins/my-plugin" then
         Some (JObject {[ "ID" := JString "my-plugin" ]})
       else None |}.

(** A host whose configuration sets the root of the plugin. *)
Definition host_with_root (root : string) : Host :=
  {| host_version_ok := true;
     host_configuration :=
       {[ "OrthancExplorer2" := JObject {[ "Root" := JString root ]} ]};
     host_rest_get := λ _, None |}.

Definition configuration_with_root (root : string) : gmap string json :=
  {[ "Root" := JString root; "Enable" := JBool true;
     "UiOptions" := JObject {[ "a" := JInt 1 ]} ]}.

Definition sample_names : list string :=
  ["dicom-web"; "explorer.js"; "gdcm"; "tcia"; "my-plugin"].

Definition sample_plugin : Plugin :=
  snd (OrthancPluginInitialize sample_host sample_store unloaded).

(** A store whose entry script has a token that is not closed. *)
Definition store_with_open_token : EmbeddedResources :=
  {| directory_resources := λ _,
       {[ "/index.bad.js" := "load('${OE2_BASE_URL');" ]};
     file_resources := file_resources sample_store;
     default_configuration := default_configuration sample_store |}.

(** A host whose configuration has the given section for the plugin. *)
Definition host_with_section (section : gmap string json) : Host :=
  {| host_version_ok := true;
     host_configuration := {[ "OrthancExplorer2" := JObject section ]};
     host_rest_get := λ _, None |}.

(** The branches of the chain of lines 231-306 that assign [true]. *)
Definition always_enabled : list string :=
  [ "connectivity-checks"; "transfers"; "web-viewer"; "wsi" ].

(** The branches of the chain that test the presence of a section: plugin
    name, section. *)
Definition section_rules : list (string * string) :=
  [ ("osimis-web-viewer", "WebViewer");
    ("python", "PythonScript");
    ("serve-folders", "ServeFolders");
    ("stone-webviewer", "StoneWebViewer") ].

(** A GET request without captured group. *)
Definition sample_get : OrthancPluginHttpRequest :=
  {| method := OrthancPluginHttpMethod_Get; groups := [] |}.

(** The answer to a first GET on the configuration route, with the state
    it leaves. *)
Definition sample_first_answer : Answer * Plugin :=
  default (SendMethodNotAllowed "GET", sample_plugin)
    (GetOE2Configuration sample_plugin sample_host sample_get).

(** A host that lists one plugin and answers a string for its
    information. *)
Definition host_with_malformed_info : Host :=
  {| host_version_ok := true;
     host_configuration := ∅;
     host_rest_get := λ uri,
       if String.eqb uri "/plugins" then Some (JArray [JString "wsi"])
       else Some (JString "not a record") |}.

(** A host whose configuration has the sections of the viewer and of the
    authorization plugin, and that lists them. *)
Definition host_with_sections : Host :=
  {| host_version_ok := true;
     host_configuration :=
       {[ "OrthancExplorer2" := JObject {[ "Root" := JString "/ui/" ]};
          "StoneWebViewer" := JObject ∅;
          "Authorization" := JObject {[ "WebService" := JNull ]} ]};
     host_rest_get := λ uri,
       if String.eqb uri "/plugins" then
         Some (JArray [JString "stone-webviewer"; JString "authorization";
                       JString "wsi"; JString "python"])
       else if String.eqb uri "/plugins/wsi" then
         Some (JObject {[ "ID" := JString "wsi"; "Enabled" := JBool false;
                          "Version" := JString "2.0" ]})
       else None |}.

Definition listed_with_sections : list string :=
  ["stone-webviewer"; "authorization"; "wsi"; "python"].

Definition plugin_with_sections : Plugin :=
  snd (OrthancPluginInitialize host_with_sections sample_store unloaded).

(** * Theorems *)

Section json_induction.
Context (P : json → Prop).
Hypothesis Hnull : P JNull.
Hypothesis Hint : ∀ i, P (JInt i).
Hypothesis Huint : ∀ u, P (JUInt u).
Hypothesis Hreal : ∀ bits, P (JReal bits).
Hypothesis Hstring : ∀ s, P (JString s).
Hypothesis Hbool : ∀ b, P (JBool b).
Hypothesis Harray : ∀ l, Forall P l → P (JArray l).
Hypothesis Hobject : ∀ m, map_Forall (λ _, P) m → P (JObject m).

Lemma weight_member (m : gmap string json) key x :
  m !! key = Some x → (weight x < weight (JObject m))%nat.
Proof.
  intros Hx. simpl.
  rewrite (map_fold_delete_L _ _ key x m); [lia| |done].
  intros; lia.
Qed.

Lemma weight_element (l : list json) x :
  x ∈ l → (weight x < weight (JArray l))%nat.
Proof.
  simpl. induction 1; simpl; lia.
Qed.

Lemma json_ind' : ∀ v, P v.
Proof.
  intros v. remember (weight v) as n eqn:Hn.
  revert v Hn. induction n as [n IH] using lt_wf_ind.
  intros [] ->; auto.
  - apply Harray, Forall_forall. intros x Hx.
    eapply IH; [|done]. by apply weight_element.
  - apply Hobject. intros key x Hx.
    eapply IH; [|done]. by eapply weight_member.
Qed.
End json_induction.

(** ** MergeJson *)

Lemma touch_lookup key key' (m : gmap string json) :
  touch key m !! key' =
    if decide (key = key') then Some (member m key) else m !! key'.
Proof.
  unfold touch, member. case_decide as Hk; subst.
  - destruct (m !! key') eqn:E; simpl; [done|]. by rewrite lookup_insert_eq.
  - destruct (m !! key) eqn:E; [done|]. by rewrite lookup_insert_ne.
Qed.


Lemma MergeJson_unfold ma mb :
  MergeJson (JObject ma) (JObject mb) = JObject (map_fold MergeJson_step ma mb).
Proof. reflexivity. Qed.

Lemma MergeJson_step_lookup key bkey (a : gmap string json) key' :
  MergeJson_step key bkey a !! key' =
    if decide (key = key') then Some (merged_member (a !! key) bkey)
    else a !! key'.
Proof.
  unfold MergeJson_step; cbv zeta.
  assert (Hm : member (touch key a) key = member a key).
  { unfold member at 1. rewrite touch_lookup. by rewrite decide_True. }
  rewrite !Hm. case_decide as Hk; subst.
  - unfold member. destruct (a !! key') as [[]|]; simpl;
      try (by rewrite lookup_insert_eq);
      destruct bkey; simpl; by rewrite lookup_insert_eq.
  - destruct (_ && _); rewrite lookup_insert_ne by done;
      rewrite touch_lookup; by rewrite decide_False.
Qed.

Lemma MergeJson_fold_lookup (ma mb : gmap string json) key :
  map_fold MergeJson_step ma mb !! key =
    match mb !! key with
    | Some bkey => Some (merged_member (ma !! key) bkey)
    | None => ma !! key
    end.
Proof.
  revert key.
  apply (map_fold_weak_ind (λ r m, ∀ key, r !! key =
      match m !! key with
      | Some bkey => Some (merged_member (ma !! key) bkey)
      | None => ma !! key
      end)); clear mb.
  { intros key. by rewrite lookup_empty. }
  intros i x m r Hi IH key.
  rewrite MergeJson_step_lookup. case_decide as Hk; subst.
  - rewrite lookup_insert_eq. by rewrite IH, Hi.
  - rewrite lookup_insert_ne by done. apply IH.
Qed.

Lemma MergeJson_self x : MergeJson x x = x.
Proof.
  induction x as [| | | | | | |m IH] using json_ind'; try done.
  rewrite MergeJson_unfold. f_equal. apply map_eq. intros key.
  rewrite MergeJson_fold_lookup.
  destruct (m !! key) as [v|] eqn:E; [|done].
  f_equal. specialize (IH key v E). simpl in IH. by destruct v.
Qed.

Lemma MergeJson_returns_object ma mb :
  ∃ mr, MergeJson (JObject ma) (JObject mb) = JObject mr.
Proof. eexists. apply MergeJson_unfold. Qed.

Example merge_scenario :
  get_path ["UiOptions"] (MergeJson sample_default sample_override)
  = Some (JObject {[ "a" := JInt 1; "b" := JInt 2 ]}).
Proof. vm_compute. reflexivity. Qed.



(** C8: merging the same source a second time changes nothing. *)
Theorem MergeJson_idempotent (A B : json) :
  MergeJson (MergeJson A B) B = MergeJson A B.
Proof.
  revert A. induction B as [| | | | | | |mb IH] using json_ind'; try done.
  intros [| | | | | | |ma]; try done.
  rewrite !MergeJson_unfold. f_equal. apply map_eq. intros key.
  rewrite !MergeJson_fold_lookup.
  destruct (mb !! key) as [bkey|] eqn:E; [|done].
  f_equal. specialize (IH key bkey E). simpl in IH.
  destruct bkey as [| | | | | | |y]; try (by destruct (ma !! key) as [[]|]).
  destruct (ma !! key) as [[| | | | | | |x]|] eqn:Ea;
    try apply (MergeJson_self (JObject y)).
  change (merged_member (Some (JObject x)) (JObject y))
    with (MergeJson (JObject x) (JObject y)).
  destruct (MergeJson_returns_object x y) as [r Hr]. rewrite Hr at 1.
  change (merged_member (Some (JObject r)) (JObject y))
    with (MergeJson (JObject r) (JObject y)).
  rewrite <- Hr. apply IH.
Qed.

Lemma MergeJson_untouched (defaults override : json) key p :
  get_path [key] override = None →
  get_path (key :: p) (MergeJson defaults override)
  = get_path (key :: p) defaults.
Proof.
  intros Ho. destruct override as [| | | | | | |mo]; try by destruct defaults.
  destruct defaults as [| | | | | | |md]; try done.
  rewrite MergeJson_unfold. simpl. rewrite MergeJson_fold_lookup.
  simpl in Ho. by destruct (mo !! key).
Qed.

(** C9: a key path that the default document has and that the override
    document does not mention keeps, in the merged document, the value it
    has in the default document: it is neither removed nor altered.  The
    override does not mention the path when it has no value at the path
    and, at each prefix of the path where it has a value, that value is an
    object (so that the merge goes on below that prefix).  A path that the
    override has at none of its prefixes is the first case of this. *)
Theorem MergeJson_frame (defaults override : json) (p : list string) (v : json) :
  p ≠ [] →
  get_path p defaults = Some v →
  get_path p override = None →
  (∀ q w, q ≠ [] → q `prefix_of` p →
          get_path q override = Some w → isObject w = true) →
  get_path p (MergeJson defaults override) = Some v.
Proof.
  revert defaults override. induction p as [|key p IH]; [done|].
  intros defaults override _ Hv Hnone Hprefixes.
  destruct override as [| | | | | | |mo]; try by destruct defaults.
  destruct defaults as [| | | | | | |md]; try done.
  rewrite MergeJson_unfold.
  change (get_path (key :: p) (JObject ?m)) with (m !! key ≫= get_path p)
    in *.
  rewrite MergeJson_fold_lookup.
  destruct (mo !! key) as [okey|] eqn:Hokey; [|done].
  destruct (md !! key) as [dkey|]; [|done].
  cbn [mbind option_bind] in *.
  destruct (decide (p = [])) as [->|Hp]; [done|].
  assert (Hobject : isObject okey = true).
  { apply (Hprefixes [key]); [done|by exists p|].
    simpl. by rewrite Hokey. }
  destruct okey as [| | | | | | |y]; try done.
  destruct dkey as [| | | | | | |x]; try by destruct p.
  change (merged_member (Some (JObject x)) (JObject y))
    with (MergeJson (JObject x) (JObject y)).
  apply IH; [done|done|done|].
  intros q w Hq [r ->] Hw. apply (Hprefixes (key :: q)); [done| |].
  - by exists r.
  - change (get_path (key :: q) (JObject mo)) with (mo !! key ≫= get_path q).
    by rewrite Hokey.
Qed.

Lemma MergeJson_frame_witness :
  get_path ["UiOptions"; "a"] (MergeJson sample_default sample_override)
  = Some (JInt 1)
  ∧ get_path ["Root"] (MergeJson sample_default sample_override)
    = Some (JString "/ui/").
Proof.
  split.
  - apply MergeJson_frame; [discriminate|by vm_compute|by vm_compute|].
    intros q w Hq [r Hr] Hw.
    destruct q as [|k1 [|k2 [|k3 q]]]; try discriminate Hr.
    + by destruct Hq.
    + injection Hr as <- _. vm_compute in Hw. by injection Hw as <-.
    + injection Hr as <- <- _. vm_compute in Hw. discriminate Hw.
  - apply MergeJson_frame; [discriminate|by vm_compute|by vm_compute|].
    intros q w Hq [r Hr] Hw.
    destruct q as [|k1 [|k2 q]]; try discriminate Hr.
    + by destruct Hq.
    + injection Hr as <- _. vm_compute in Hw. discriminate Hw.
Defined.

(** ** Strings *)

Lemma substring_length_le (n : nat) (s : string) :
  (String.length (String.substring 0 n s) ≤ String.length s)%nat.
Proof.
  revert n. induction s as [|c s IH]; intros [|n]; simpl; try lia.
  specialize (IH n). lia.
Qed.

Lemma StartsWith_prefix (str pre : string) :
  StartsWith str pre = String.prefix pre str.
Proof.
  apply eq_true_iff_eq. rewrite String.prefix_correct. unfold StartsWith.
  destruct (String.length str <? String.length pre)%nat eqn:E.
  - apply Nat.ltb_lt in E. split; [done|]. intros Heq.
    pose proof (substring_length_le (String.length pre) str) as Hle.
    rewrite Heq in Hle. lia.
  - apply String.eqb_eq.
Qed.

Lemma app_assoc (s t u : string) : (s +:+ t) +:+ u = s +:+ t +:+ u.
Proof.
  induction s as [|c s IH]; [done|].
  change (String c ((s +:+ t) +:+ u) = String c (s +:+ t +:+ u)).
  by rewrite IH.
Qed.

Lemma substring_all (s t : string) :
  String.substring 0 (String.length s) (s +:+ t) = s.
Proof. induction s; simpl; [by destruct t|by f_equal]. Qed.

Lemma length_app (s t : string) :
  String.length (s +:+ t) = (String.length s + String.length t)%nat.
Proof. induction s; simpl; [done|by f_equal]. Qed.

Lemma drop_last_app (s : string) (c : Ascii.ascii) :
  drop_last (s +:+ String c "") = s.
Proof.
  unfold drop_last. rewrite length_app. simpl.
  replace (String.length s + 1 - 1)%nat with (String.length s) by lia.
  apply substring_all.
Qed.

(** ** ServeEmbeddedFolder *)

Section folder.
Context `{Framework}.

Lemma is_index_script_captured (mimeType : MimeType) (captured : string) :
  is_index_script mimeType ("/" +:+ captured)
  = bool_decide (mimeType = MimeType_JavaScript)
    && String.prefix "index." captured.
Proof. unfold is_index_script. by rewrite StartsWith_prefix. Qed.

Lemma substitution_dictionary_root (root : string) :
  substitution_dictionary (root +:+ "/")
  = {[ "OE2_API_BASE_URL" := root +:+ "/api/";
       "OE2_BASE_URL" := root +:+ "/app";
       "ORTHANC_API_BASE_URL" := "/" ]}.
Proof.
  unfold substitution_dictionary. by rewrite drop_last_app, insert_empty.
Qed.

(** C2: a GET on the directory route whose path is not in the embedded
    store is answered with [AnswerBuffer], HTTP status 200, an empty body
    and the MIME type detected from the path; the only assumption on the
    framework is that substituting into the empty content gives the empty
    content or throws. *)
Theorem ServeEmbeddedFolder_missing (store : EmbeddedResources)
    (plugin : Plugin) (folder : DirectoryResourceId)
    (request : OrthancPluginHttpRequest) (captured : string) :
  method request = OrthancPluginHttpMethod_Get →
  groups request !! 0%nat = Some captured →
  directory_resources store folder !! ("/" +:+ captured) = None →
  (∀ dictionary, SubstituteVariables "" dictionary = Some ""
                 ∨ SubstituteVariables "" dictionary = None) →
  let answer := ServeEmbeddedFolder store plugin folder request in
  answer = AnswerBuffer ""
             (EnumerationToString (AutodetectMimeType ("/" +:+ captured)))
  ∧ http_status answer = 200
  ∧ http_body answer = "".
Proof.
  intros Hget Hgroup Hmissing Hempty. cbv zeta.
  assert (ServeEmbeddedFolder store plugin folder request
          = AnswerBuffer ""
              (EnumerationToString (AutodetectMimeType ("/" +:+ captured))))
    as ->; [|done].
  unfold ServeEmbeddedFolder, GetDirectoryResource.
  rewrite Hget, Hgroup. simpl. rewrite Hmissing. simpl.
  destruct (is_index_script _ _); [|done].
  unfold substitute.
  by destruct (Hempty (substitution_dictionary (oe2BaseUrl_ plugin))) as [-> | ->].
Qed.

(** C3, amended: on a GET, the substitution is performed exactly when the
    detected MIME type is JavaScript and the requested path (not its file
    name) starts with [index.].  When it is performed, in a framework that
    honours its token syntax, the token of the API base path is replaced
    by [/], the token of the application base path by the base URL without
    its trailing separator followed by [/app], and the token of the API
    endpoint base path by the same followed by [/api/]: the answer carries
    the text before the token, the value in place of the token, and the
    substituted rest. *)
Theorem ServeEmbeddedFolder_substitution (store : EmbeddedResources)
    (plugin : Plugin) (folder : DirectoryResourceId)
    (request : OrthancPluginHttpRequest) (captured root : string) :
  method request = OrthancPluginHttpMethod_Get →
  groups request !! 0%nat = Some captured →
  oe2BaseUrl_ plugin = root +:+ "/" →
  let path := "/" +:+ captured in
  let fileContent := GetDirectoryResource store folder path in
  let mime := EnumerationToString (AutodetectMimeType path) in
  let performed :=
    bool_decide (AutodetectMimeType path = MimeType_JavaScript)
    && String.prefix "index." captured in
  let dictionary : gmap string string :=
    {[ "OE2_API_BASE_URL" := root +:+ "/api/";
       "OE2_BASE_URL" := root +:+ "/app";
       "ORTHANC_API_BASE_URL" := "/" ]} in
  ServeEmbeddedFolder store plugin folder request
  = AnswerBuffer
      (if performed
       then default fileContent (SubstituteVariables fileContent dictionary)
       else fileContent)
      mime
  ∧ ∀ (token : string → string) (plain : string → Prop)
      (name value pre post rest : string),
      honours token plain →
      (name, value) ∈ [ ("ORTHANC_API_BASE_URL", "/");
                        ("OE2_BASE_URL", root +:+ "/app");
                        ("OE2_API_BASE_URL", root +:+ "/api/") ] →
      performed = true →
      fileContent = pre +:+ token name +:+ post →
      plain pre →
      SubstituteVariables post dictionary = Some rest →
      ServeEmbeddedFolder store plugin folder request
      = AnswerBuffer (pre +:+ value +:+ rest) mime.
Proof.
  intros Hget Hgroup Hroot. cbv zeta.
  assert (Hanswer :
    ServeEmbeddedFolder store plugin folder request
    = AnswerBuffer
        (if bool_decide (AutodetectMimeType ("/" +:+ captured)
                         = MimeType_JavaScript)
            && String.prefix "index." captured
         then default (GetDirectoryResource store folder ("/" +:+ captured))
                (SubstituteVariables
                   (GetDirectoryResource store folder ("/" +:+ captured))
                   {[ "OE2_API_BASE_URL" := root +:+ "/api/";
                      "OE2_BASE_URL" := root +:+ "/app";
                      "ORTHANC_API_BASE_URL" := "/" ]})
         else GetDirectoryResource store folder ("/" +:+ captured))
        (EnumerationToString (AutodetectMimeType ("/" +:+ captured)))).
  { unfold ServeEmbeddedFolder. rewrite Hget, Hgroup. simpl.
    change (String "/" captured) with ("/" +:+ captured).
    rewrite is_index_script_captured. f_equal.
    destruct (_ && _); [|done].
    unfold substitute. rewrite Hroot, substitution_dictionary_root.
    by destruct (SubstituteVariables _ _). }
  split; [exact Hanswer|].
  intros token plain name value pre post rest Hhonours Hname Hperformed
    Hcontent Hplain Hrest.
  rewrite Hanswer, Hperformed, Hcontent. f_equal.
  assert (Hbound : name ∈ token_names
                   ∧ ({[ "OE2_API_BASE_URL" := root +:+ "/api/";
                         "OE2_BASE_URL" := root +:+ "/app";
                         "ORTHANC_API_BASE_URL" := "/" ]} : gmap string string)
                     !! name = Some value).
  { rewrite !elem_of_cons, elem_of_nil in Hname.
    destruct Hname as [[= -> ->]|[[= -> ->]|[[= -> ->]|[]]]].
    - split; [repeat constructor|]. reflexivity.
    - split; [repeat constructor|]. reflexivity.
    - split; [repeat constructor|]. reflexivity. }
  destruct Hbound as [Hin Hlookup].
  by rewrite (Hhonours _ name value pre post Hin Hlookup Hplain), Hrest.
Qed.

End folder.

(** The reference substitution honours its token syntax: it copies a text
    without the opening character, and reads a name up to the closing
    one. *)
Lemma append_empty_r (s : string) : s +:+ "" = s.
Proof. induction s; [done|]. by rewrite <- IHs at 2. Qed.

Lemma reference_substitute_plain (dictionary : gmap string string)
    (pre template : string) :
  reference_plain pre →
  reference_substitute dictionary None (pre +:+ template)
  = (λ out, pre +:+ out) <$> reference_substitute dictionary None template.
Proof.
  unfold reference_plain. induction pre as [|c pre IH]; intros Hplain.
  { change ("" +:+ template) with template.
    by destruct (reference_substitute dictionary None template). }
  cbn [free_of] in Hplain. apply andb_prop in Hplain as [Hc Hpre].
  apply negb_true_iff in Hc.
  change (String c pre +:+ template) with (String c (pre +:+ template)).
  cbn [reference_substitute].
  destruct (pre +:+ template) as [|d r] eqn:Hrest.
  - destruct pre; [|discriminate Hrest].
    change ("" +:+ template) with template in Hrest. by rewrite Hrest.
  - rewrite Hc. cbn [andb]. rewrite (IH Hpre).
    by destruct (reference_substitute dictionary None template).
Qed.

Lemma reference_substitute_name (dictionary : gmap string string)
    (name read post : string) :
  free_of "}" name = true →
  reference_substitute dictionary (Some read) (name +:+ "}" +:+ post)
  = out ← reference_substitute dictionary None post;
    Some (default ("${" +:+ (read +:+ name) +:+ "}")
            (dictionary !! (read +:+ name)) +:+ out).
Proof.
  revert read. induction name as [|c name IH]; intros read Hname.
  { rewrite append_empty_r. reflexivity. }
  cbn [free_of] in Hname. apply andb_prop in Hname as [Hc Hname].
  apply negb_true_iff in Hc.
  change (String c name +:+ "}" +:+ post)
    with (String c (name +:+ "}" +:+ post)).
  cbn [reference_substitute]. rewrite Hc, (IH _ Hname).
  rewrite (app_assoc read (String c "") name). reflexivity.
Qed.

Lemma reference_honours : honours (H:=reference) reference_token reference_plain.
Proof.
  intros dictionary name value pre post Hname Hvalue Hplain.
  change (SubstituteVariables ?t dictionary)
    with (reference_substitute dictionary None t).
  rewrite (reference_substitute_plain _ _ _ Hplain).
  assert (Hfree : free_of "}" name = true).
  { unfold token_names in Hname. rewrite !elem_of_cons, elem_of_nil in Hname.
    destruct Hname as [->|[->|[->|[]]]]; reflexivity. }
  unfold reference_token.
  change (("${" +:+ name +:+ "}") +:+ post)
    with (String "$" (String "{" ((name +:+ "}") +:+ post))).
  rewrite (app_assoc name "}" post).
  cbn [reference_substitute Ascii.eqb Bool.eqb andb].
  rewrite (reference_substitute_name _ _ "" _ Hfree).
  change ("" +:+ name) with name. rewrite Hvalue.
  by destruct (reference_substitute dictionary None post).
Qed.

Lemma ServeEmbeddedFolder_missing_witness :
  ServeEmbeddedFolder sample_store sample_plugin WEB_APPLICATION_ASSETS
    {| method := OrthancPluginHttpMethod_Get; groups := ["unknown/path"] |}
  = AnswerBuffer "" "application/octet-stream".
Proof.
  refine (proj1 (ServeEmbeddedFolder_missing (H:=reference) sample_store
    sample_plugin WEB_APPLICATION_ASSETS
    {| method := OrthancPluginHttpMethod_Get; groups := ["unknown/path"] |}
    "unknown/path" _ _ _ _)).
  - reflexivity.
  - reflexivity.
  - vm_compute. reflexivity.
  - intros dictionary. left. reflexivity.
Defined.

Lemma ServeEmbeddedFolder_substitution_witness :
  ServeEmbeddedFolder sample_store sample_plugin WEB_APPLICATION_ASSETS
    {| method := OrthancPluginHttpMethod_Get; groups := ["index.4f2a.js"] |}
  = AnswerBuffer "fetch('/ui/api/configuration')" "application/javascript".
Proof.
  assert (Hget : method {| method := OrthancPluginHttpMethod_Get;
                           groups := ["index.4f2a.js"] |}
                 = OrthancPluginHttpMethod_Get) by reflexivity.
  assert (Hgroup : groups {| method := OrthancPluginHttpMethod_Get;
                             groups := ["index.4f2a.js"] |} !! 0%nat
                   = Some "index.4f2a.js") by reflexivity.
  assert (Hroot : oe2BaseUrl_ sample_plugin = "/ui" +:+ "/")
    by (vm_compute; reflexivity).
  pose proof (ServeEmbeddedFolder_substitution (H:=reference) sample_store
                sample_plugin WEB_APPLICATION_ASSETS _ "index.4f2a.js" "/ui"
                Hget Hgroup Hroot) as [_ Hreplaced].
  apply (Hreplaced reference_token reference_plain "OE2_API_BASE_URL"
           "/ui/api/" "fetch('" "configuration')" "configuration')"
           reference_honours).
  - apply list_elem_of_further, list_elem_of_further, list_elem_of_here.
  - vm_compute. reflexivity.
  - vm_compute. reflexivity.
  - vm_compute. reflexivity.
  - vm_compute. reflexivity.
Defined.

(** C3 as stated fails: the path [/sub/index.js] has the JavaScript type
    and a file name that starts with [index.], and it is served without
    substitution, because the path itself does not start with [/index.].
    The answer is not the one that a test on the file name would give. *)
Lemma index_test_not_on_filename :
  let path := "/sub/index.js" in
  let request :=
    {| method := OrthancPluginHttpMethod_Get; groups := ["sub/index.js"] |} in
  let fileContent :=
    GetDirectoryResource sample_store WEB_APPLICATION_ASSETS path in
  AutodetectMimeType path = MimeType_JavaScript
  ∧ String.prefix "index." (filename path) = true
  ∧ is_index_script (AutodetectMimeType path) path = false
  ∧ ServeEmbeddedFolder sample_store sample_plugin WEB_APPLICATION_ASSETS request
    = AnswerBuffer "const base = '${OE2_BASE_URL}';" "application/javascript"
  ∧ ServeEmbeddedFolder sample_store sample_plugin WEB_APPLICATION_ASSETS request
    ≠ AnswerBuffer
        (if is_index_script_by_filename (AutodetectMimeType path) path
         then substitute (oe2BaseUrl_ sample_plugin) fileContent
         else fileContent)
        (EnumerationToString (AutodetectMimeType path)).
Proof.
  vm_compute. repeat split; try reflexivity. intros Heq. discriminate Heq.
Qed.

(** The scenario of the specification: a POST is answered with
    Method-Not-Allowed, the allowed method being GET. *)
Example post_not_allowed :
  let request := {| method := OrthancPluginHttpMethod_Post; groups := [] |} in
  ServeEmbeddedFile sample_store WEB_APPLICATION_INDEX MimeType_Html request
  = SendMethodNotAllowed "GET"
  ∧ ServeEmbeddedFolder sample_store sample_plugin WEB_APPLICATION_ASSETS request
    = SendMethodNotAllowed "GET"
  ∧ http_status (SendMethodNotAllowed "GET") = 405.
Proof. vm_compute. repeat split; reflexivity. Qed.

(** ** GetPluginsConfiguration *)

Section resolver.
Context `{Framework}.
Context (plugin : Plugin) (host : Host).

Lemma parent_tokens_snoc (n : nat) :
  parent_tokens n +:+ "../" = "../" +:+ parent_tokens n.
Proof.
  induction n as [|n IH]; [done|].
  change (parent_tokens (S n)) with ("../" +:+ parent_tokens n).
  by rewrite app_assoc, IH.
Qed.

Lemma pluginUriPrefix_tokens (components : list string) :
  pluginUriPrefix components = parent_tokens (length components).
Proof.
  unfold pluginUriPrefix.
  induction (length components) as [|n IH]; [done|].
  by rewrite Nat.iter_succ, IH, parent_tokens_snoc.
Qed.

Lemma get_path_object key (m : gmap string json) :
  get_path [key] (JObject m) = m !! key.
Proof. simpl. by destruct (m !! key). Qed.

Lemma rewrite_RootUri_record (pre pluginName : string) :
  info_record host pluginName →
  ∃ info, rewrite_RootUri pre (GetPluginInfo host pluginName) = Some info
    ∧ (info = JNull ∨ ∃ m, info = JObject m)
    ∧ (∀ key, key ≠ "RootUri" →
         get_path [key] info = get_path [key] (GetPluginInfo host pluginName))
    ∧ match get_path ["RootUri"] (GetPluginInfo host pluginName) with
      | None => get_path ["RootUri"] info = None
      | Some v =>
          ∃ uri, asString valueToString v = Some uri
            ∧ get_path ["RootUri"] info
              = Some (if (0 <? String.length uri)%nat
                      then JString (pre +:+ uri) else v)
      end.
Proof.
  unfold info_record, rewrite_RootUri.
  destruct (GetPluginInfo host pluginName) as [| | | | | | |m]; try done.
  { intros _. exists JNull. simpl. eauto. }
  rewrite get_path_object. unfold isMember, subscript, member.
  destruct (m !! "RootUri") as [v|] eqn:Hv.
  - intros Hok. rewrite bool_decide_eq_true_2 by eauto.
    assert (∃ uri, asString valueToString v = Some uri) as [uri Huri].
    { destruct v; simpl; eauto; done. }
    cbn -[get_path Nat.ltb]. rewrite Huri. cbn -[get_path Nat.ltb].
    destruct (0 <? String.length uri)%nat eqn:Hlen;
      eexists; (split; [done|]).
    + split; [eauto|]. split.
      * intros key Hkey. rewrite !get_path_object. by rewrite lookup_insert_ne.
      * exists uri. split; [done|].
        by rewrite Hlen, get_path_object, lookup_insert_eq.
    + split; [eauto|]. split; [done|].
      exists uri. split; [done|]. by rewrite Hlen, get_path_object.
  - intros _. rewrite bool_decide_eq_false_2 by (by intros [? ?]).
    exists (JObject m). split; [done|]. split; [eauto|]. split; [done|].
    by rewrite get_path_object.
Qed.

Lemma assign_lookup (v : json) (key : string) (x : json) :
  v = JNull ∨ (∃ m, v = JObject m) →
  ∃ m', assign v key x = Some (JObject m')
    ∧ m' !! key = Some x
    ∧ ∀ key', key' ≠ key → m' !! key' = get_path [key'] v.
Proof.
  intros [->|[m ->]]; eexists; (split; [done|]); split.
  - by rewrite lookup_singleton_eq.
  - intros key' Hne. by rewrite lookup_singleton_ne.
  - by rewrite lookup_insert_eq.
  - intros key' Hne. by rewrite lookup_insert_ne, get_path_object.
Qed.

Lemma plugin_record_spec (pre pluginName : string) :
  info_record host pluginName →
  ∃ m, plugin_record plugin host pre pluginName = Some (JObject m)
    ∧ m !! "Enabled"
      = Some (JBool (default true (enabled_override plugin pluginName)))
    ∧ match get_path ["RootUri"] (GetPluginInfo host pluginName) with
      | None => m !! "RootUri" = None
      | Some v =>
          ∃ uri, asString valueToString v = Some uri
            ∧ m !! "RootUri"
              = Some (if (0 <? String.length uri)%nat
                      then JString (pre +:+ uri) else v)
      end.
Proof.
  intros Hinfo. unfold plugin_record.
  destruct (rewrite_RootUri_record pre pluginName Hinfo)
    as (info & -> & Hshape & _ & Huri).
  cbn [mbind option_bind].
  destruct (assign_lookup info "Enabled" (JBool true) Hshape)
    as (m1 & -> & Hen1 & Hother1).
  assert (Huri1 : m1 !! "RootUri" = get_path ["RootUri"] info)
    by (by apply Hother1).
  cbn [mbind option_bind default].
  destruct (enabled_override plugin pluginName) as [enabled|].
  - destruct (assign_lookup (JObject m1) "Enabled" (JBool enabled))
      as (m2 & Hm2 & Hen2 & Hother2); [eauto|].
    rewrite Hm2.
    exists m2. split; [done|]. split; [done|].
    rewrite Hother2, get_path_object, Huri1 by done.
    destruct (get_path ["RootUri"] (GetPluginInfo host pluginName)); done.
  - exists m1. split; [done|]. split; [done|]. rewrite Huri1.
    destruct (get_path ["RootUri"] (GetPluginInfo host pluginName)); done.
Qed.

Lemma resolve_plugins_lookup (pre : string) (names : list string) (acc : json) :
  acc = JNull ∨ (∃ m, acc = JObject m) →
  (∀ n, n ∈ names → info_record host n) →
  ∃ out, resolve_plugins plugin host pre acc (JString <$> names) = Some out
    ∧ ∀ n, get_path [n] out
           = if bool_decide (n ∈ names ∧ n ≠ "explorer.js")
             then plugin_record plugin host pre n
             else get_path [n] acc.
Proof.
  revert acc. induction names as [|name names IH]; intros acc Hacc Hinfo.
  { exists acc. split; [done|]. intros n.
    rewrite bool_decide_eq_false_2; [done|]. by intros [?%elem_of_nil _]. }
  rewrite fmap_cons. cbn [resolve_plugins].
  unfold resolve_plugin. cbn [asString mbind option_bind].
  destruct (String.eqb_spec name "explorer.js") as [->|Hname];
    cbn [mbind option_bind].
  - destruct (IH acc Hacc) as (out & -> & Hout).
    { intros n Hn. apply Hinfo. by right. }
    exists out. split; [done|]. intros n. rewrite Hout.
    rewrite (bool_decide_ext (n ∈ "explorer.js" :: names ∧ n ≠ "explorer.js")
               (n ∈ names ∧ n ≠ "explorer.js")); [done|].
    rewrite elem_of_cons. tauto.
  - destruct (plugin_record_spec pre name) as (m & Hrecord & _).
    { apply Hinfo. by left. }
    rewrite Hrecord. cbn [mbind option_bind].
    destruct (assign_lookup acc name (JObject m) Hacc)
      as (m' & -> & Hname' & Hother).
    cbn [mbind option_bind].
    destruct (IH (JObject m')) as (out & -> & Hout); [eauto| |].
    { intros n Hn. apply Hinfo. by right. }
    exists out. split; [done|]. intros n. rewrite Hout, get_path_object.
    destruct (decide (n = name)) as [->|Hne].
    + rewrite Hname', <- Hrecord.
      rewrite (bool_decide_eq_true_2 (name ∈ name :: names ∧ _)).
      * by case_bool_decide.
      * split; [by left|done].
    + rewrite Hother by done.
      rewrite (bool_decide_ext (n ∈ name :: names ∧ n ≠ "explorer.js")
                 (n ∈ names ∧ n ≠ "explorer.js")); [done|].
      rewrite elem_of_cons. tauto.
Qed.

Lemma GetPluginsConfiguration_lookup (components : list string)
    (names : list string) :
  SplitUriComponents (oe2BaseUrl_ plugin) = Some components →
  plugin_list host names →
  (∀ n, n ∈ names → info_record host n) →
  ∃ out, GetPluginsConfiguration plugin host = Some out
    ∧ ∀ n, get_path [n] out
           = if bool_decide (n ∈ names ∧ n ≠ "explorer.js")
             then plugin_record plugin host
                    (parent_tokens (length components)) n
             else None.
Proof.
  intros Hsplit Hlist Hinfo. unfold GetPluginsConfiguration.
  rewrite Hsplit, Hlist. cbn [mbind option_bind elements].
  rewrite pluginUriPrefix_tokens.
  destruct (resolve_plugins_lookup (parent_tokens (length components))
              names JNull) as (out & -> & Hout); [eauto|done|].
  exists out. split; [done|]. intros n. rewrite Hout.
  by case_bool_decide.
Qed.

Lemma get_path_step key p (v : json) :
  get_path (key :: p) v = get_path [key] v ≫= get_path p.
Proof.
  destruct v as [| | | | | | |m]; try done.
  rewrite get_path_object. done.
Qed.

Lemma IsPluginEnabledInConfiguration_true (sectionName keyName : string) :
  IsPluginEnabledInConfiguration plugin sectionName keyName = true
  ↔ ∃ section v,
      orthancFullConfiguration_ plugin !! sectionName = Some (JObject section)
      ∧ section !! keyName = Some v ∧ truthy v = true.
Proof.
  unfold IsPluginEnabledInConfiguration, IsSection, GetSection, GetBooleanValue.
  destruct (orthancFullConfiguration_ plugin !! sectionName)
    as [[| | | | | | |section]|]; try (split; [done|by intros (? & ? & ? & _)]).
  destruct (section !! keyName) as [v|] eqn:Hv.
  - split; [eauto|]. by intros (? & ? & [= <-] & [= <-]%(eq_trans (eq_sym Hv)) & ?).
  - split; [done|]. intros (? & ? & [= <-] & ? & _). congruence.
Qed.

Lemma enabled_override_rule (pluginName sectionName keyName : string) :
  (pluginName, (sectionName, keyName)) ∈ section_key_rules →
  pluginName ≠ "explorer.js"
  ∧ ∃ enabled,
      enabled_override plugin pluginName = Some enabled
      ∧ (enabled = true
         ↔ ∃ section v,
             orthancFullConfiguration_ plugin !! sectionName
             = Some (JObject section)
             ∧ section !! keyName = Some v
             ∧ (pluginName = "authorization" ∨ truthy v = true)).
Proof.
  unfold section_key_rules. rewrite !elem_of_cons, elem_of_nil.
  intros [[= -> -> ->]|Hrule].
  { split; [done|]. eexists. split; [reflexivity|].
    unfold GetPluginConfiguration, IsSection, GetSection.
    destruct (orthancFullConfiguration_ plugin !! "Authorization")
      as [[| | | | | | |section]|]; cbn [isMember default];
      try (split; [done|by intros (? & ? & ? & _)]).
    unfold id. rewrite bool_decide_eq_true. split.
    - intros [v Hv]. exists section, v. auto.
    - intros (? & v & [= <-] & Hv & _). by exists v. }
  assert (pluginName ≠ "authorization" ∧ pluginName ≠ "explorer.js"
          ∧ enabled_override plugin pluginName
            = Some (IsPluginEnabledInConfiguration plugin sectionName keyName))
    as (Hother & Hname & ->).
  { repeat destruct Hrule as [[= -> -> ->]|Hrule]; done. }
  split; [done|]. eexists. split; [reflexivity|].
  rewrite IsPluginEnabledInConfiguration_true. split.
  - intros (section & v & Hsection & Hv & Htruthy). exists section, v. auto.
  - intros (section & v & Hsection & Hv & [Hauth|Htruthy]); [done|].
    by exists section, v.
Qed.

Lemma enabled_override_none (pluginName : string) :
  pluginName ∉ override_table → enabled_override plugin pluginName = None.
Proof.
  unfold override_table. rewrite !elem_of_cons, elem_of_nil. intros Hnot.
  unfold enabled_override.
  repeat match goal with
  | |- context [String.eqb pluginName ?name] =>
      destruct (String.eqb_spec pluginName name) as [->|_];
      [exfalso; apply Hnot; repeat (first [left; reflexivity|right])|]
  end.
  done.
Qed.

(** C5, amended: for a plugin that the chain maps to a key [keyName] of a
    section [sectionName], and that the host lists, the resolver returns,
    and the plugin's [Enabled] is true exactly when the section exists and
    holds a truthy value under the key, except for [authorization], whose
    [Enabled] is true exactly when the section exists and has the key,
    whatever the value under it; [Enabled] is false in every other case,
    and in particular when the section is absent. *)
Theorem section_key_enablement (components names : list string)
    (pluginName sectionName keyName : string) :
  (pluginName, (sectionName, keyName)) ∈ section_key_rules →
  SplitUriComponents (oe2BaseUrl_ plugin) = Some components →
  plugin_list host names →
  (∀ n, n ∈ names → info_record host n) →
  pluginName ∈ names →
  ∃ out enabled,
    GetPluginsConfiguration plugin host = Some out
    ∧ get_path [pluginName; "Enabled"] out = Some (JBool enabled)
    ∧ (enabled = true
       ↔ ∃ section v,
           orthancFullConfiguration_ plugin !! sectionName
           = Some (JObject section)
           ∧ section !! keyName = Some v
           ∧ (pluginName = "authorization" ∨ truthy v = true))
    ∧ (orthancFullConfiguration_ plugin !! sectionName = None →
       enabled = false).
Proof.
  intros (Hname & enabled & Hrule & Hiff)%enabled_override_rule
    Hsplit Hlist Hinfo Hin.
  destruct (GetPluginsConfiguration_lookup components names Hsplit Hlist Hinfo)
    as (out & Hout & Hlookup).
  destruct (plugin_record_spec (parent_tokens (length components)) pluginName
              (Hinfo _ Hin)) as (m & Hrecord & Henabled & _).
  exists out, enabled.
  split; [done|]. split; [|split; [exact Hiff|]].
  - rewrite get_path_step, Hlookup.
    rewrite bool_decide_eq_true_2, Hrecord by done.
    cbn [mbind option_bind]. by rewrite get_path_object, Henabled, Hrule.
  - intros Habsent. destruct enabled; [|done].
    destruct (proj1 Hiff eq_refl) as (section & v & Hsection & _).
    congruence.
Qed.

(** C6: a plugin whose information has a ["RootUri"] that converts to a
    non-empty string gets it replaced by that string behind as many [../]
    as the base URL has components; a ["RootUri"] that is absent, or that
    converts to the empty string, is left as it is. *)
Theorem RootUri_rewritten (components names : list string)
    (pluginName : string) :
  SplitUriComponents (oe2BaseUrl_ plugin) = Some components →
  plugin_list host names →
  (∀ n, n ∈ names → info_record host n) →
  pluginName ∈ names →
  pluginName ≠ "explorer.js" →
  ∃ out,
    GetPluginsConfiguration plugin host = Some out
    ∧ match get_path ["RootUri"] (GetPluginInfo host pluginName) with
      | Some v =>
          ∃ uri, asString valueToString v = Some uri
            ∧ get_path [pluginName; "RootUri"] out
              = Some (if bool_decide (uri = "") then v
                      else JString (parent_tokens (length components) +:+ uri))
      | None => get_path [pluginName; "RootUri"] out = None
      end.
Proof.
  intros Hsplit Hlist Hinfo Hin Hname.
  destruct (GetPluginsConfiguration_lookup components names Hsplit Hlist Hinfo)
    as (out & Hout & Hlookup).
  destruct (plugin_record_spec (parent_tokens (length components)) pluginName
              (Hinfo _ Hin)) as (m & Hrecord & _ & Huri).
  exists out. split; [done|].
  assert (get_path [pluginName; "RootUri"] out = m !! "RootUri") as ->.
  { rewrite (get_path_step pluginName), Hlookup.
    rewrite bool_decide_eq_true_2, Hrecord by done.
    cbn [mbind option_bind]. apply get_path_object. }
  destruct (get_path ["RootUri"] (GetPluginInfo host pluginName)) as [v|];
    [|done].
  destruct Huri as (uri & Hconv & ->). exists uri. split; [done|].
  by destruct uri.
Qed.

(** C7: a plugin that the host lists, that is not [explorer.js] and that
    the chain does not name is in the output with [Enabled] true;
    [explorer.js] is not in the output. *)
Theorem unknown_plugin_enabled (components names : list string) :
  SplitUriComponents (oe2BaseUrl_ plugin) = Some components →
  plugin_list host names →
  (∀ n, n ∈ names → info_record host n) →
  ∃ out,
    GetPluginsConfiguration plugin host = Some out
    ∧ (∀ pluginName,
         pluginName ∈ names →
         pluginName ≠ "explorer.js" →
         pluginName ∉ override_table →
         get_path [pluginName; "Enabled"] out = Some (JBool true))
    ∧ get_path ["explorer.js"] out = None.
Proof.
  intros Hsplit Hlist Hinfo.
  destruct (GetPluginsConfiguration_lookup components names Hsplit Hlist Hinfo)
    as (out & Hout & Hlookup).
  exists out. split; [done|]. split.
  - intros pluginName Hin Hname Htable.
    destruct (plugin_record_spec (parent_tokens (length components))
                pluginName (Hinfo _ Hin)) as (m & Hrecord & Henabled & _).
    rewrite get_path_step, Hlookup.
  rewrite bool_decide_eq_true_2, Hrecord by done.
    cbn [mbind option_bind].
    by rewrite get_path_object, Henabled, enabled_override_none.
  - rewrite Hlookup, bool_decide_eq_false_2; [done|]. by intros [_ ?].
Qed.

End resolver.

Lemma sample_registry :
  SplitUriComponents (oe2BaseUrl_ sample_plugin) = Some ["ui"]
  ∧ plugin_list sample_host sample_names
  ∧ ∀ n, n ∈ sample_names → info_record sample_host n.
Proof.
  split; [vm_compute; reflexivity|]. split; [vm_compute; reflexivity|].
  intros n Hn. unfold sample_names in Hn.
  rewrite !elem_of_cons, elem_of_nil in Hn.
  repeat destruct Hn as [->|Hn]; [..|destruct Hn]; vm_compute; exact I.
Defined.

Lemma section_key_enablement_witness :
  ∃ out,
    GetPluginsConfiguration sample_plugin sample_host = Some out
    ∧ get_path ["dicom-web"; "Enabled"] out = Some (JBool true).
Proof.
  destruct sample_registry as (Hsplit & Hlist & Hinfo).
  assert (Hrule : ("dicom-web", ("DicomWeb", "Enable")) ∈ section_key_rules).
  { apply list_elem_of_further, list_elem_of_here. }
  pose proof (section_key_enablement sample_plugin sample_host ["ui"]
                sample_names "dicom-web" "DicomWeb" "Enable"
                Hrule Hsplit Hlist Hinfo (list_elem_of_here _ _))
    as (out & enabled & Hout & Henabled & Hiff & _).
  exists out. split; [exact Hout|]. rewrite Henabled. do 2 f_equal.
  apply Hiff. exists {[ "Enable" := JBool true ]}, (JBool true).
  split; [vm_compute; reflexivity|]. split; [vm_compute; reflexivity|].
  right. reflexivity.
Defined.

(** The rule of [authorization] is in the table, and a configuration whose
    [Authorization] section has a null [WebService] reports the plugin
    enabled although the key is not truthy. *)
Lemma authorization_key_not_truthy :
  ("authorization", ("Authorization", "WebService")) ∈ section_key_rules
  ∧ (∃ out,
       GetPluginsConfiguration plugin_with_sections host_with_sections
       = Some out
       ∧ get_path ["authorization"; "Enabled"] out = Some (JBool true))
  ∧ ¬ (∃ section v,
         orthancFullConfiguration_ plugin_with_sections !! "Authorization"
         = Some (JObject section)
         ∧ section !! "WebService" = Some v ∧ truthy v = true).
Proof.
  split; [apply list_elem_of_here|]. split.
  - eexists. split; vm_compute; reflexivity.
  - intros (section & v & Hsection & Hv & Htruthy).
    vm_compute in Hsection. injection Hsection as <-.
    vm_compute in Hv. injection Hv as <-.
    vm_compute in Htruthy. discriminate Htruthy.
Qed.

Lemma RootUri_rewritten_witness :
  ∃ out,
    GetPluginsConfiguration sample_plugin sample_host = Some out
    ∧ get_path ["dicom-web"; "RootUri"] out
      = Some (JString "../../dicom-web/app/client/index.html").
Proof.
  destruct sample_registry as (Hsplit & Hlist & Hinfo).
  assert (Hname : "dicom-web" ≠ "explorer.js") by discriminate.
  pose proof (RootUri_rewritten sample_plugin sample_host ["ui"] sample_names
                "dicom-web" Hsplit Hlist Hinfo (list_elem_of_here _ _) Hname)
    as (out & Hout & Hroot).
  exists out. split; [exact Hout|].
  vm_compute in Hroot. destruct Hroot as (uri & Huri & Hroot).
  injection Huri as <-. exact Hroot.
Defined.

Lemma unknown_plugin_enabled_witness :
  ∃ out,
    GetPluginsConfiguration sample_plugin sample_host = Some out
    ∧ get_path ["my-plugin"; "Enabled"] out = Some (JBool true)
    ∧ get_path ["explorer.js"] out = None.
Proof.
  destruct sample_registry as (Hsplit & Hlist & Hinfo).
  pose proof (unknown_plugin_enabled sample_plugin sample_host ["ui"]
                sample_names Hsplit Hlist Hinfo)
    as (out & Hout & Hunknown & Hself).
  exists out. split; [exact Hout|]. split; [|exact Hself].
  apply Hunknown.
  - unfold sample_names.
    repeat (first [apply list_elem_of_here | apply list_elem_of_further]).
  - discriminate.
  - apply (proj1 (bool_decide_eq_false _)). vm_compute. reflexivity.
Defined.

(** The scenario of the specification: the host lists [dicom-web] and has
    no [DicomWeb] section. *)
Example dicom_web_without_section :
  let host :=
    {| host_version_ok := true; host_configuration := ∅;
       host_rest_get := λ uri,
         if String.eqb uri "/plugins" then Some (JArray [JString "dicom-web"])
         else None |} in
  let plugin := snd (OrthancPluginInitialize host sample_store unloaded) in
  GetPluginsConfiguration plugin host ≫= get_path ["dicom-web"; "Enabled"]
  = Some (JBool false).
Proof. vm_compute. reflexivity. Qed.

(** ** Initialization *)

Lemma first_char_separator (s : string) :
  first_char s = Some "/"%char ↔ starts_with_separator s.
Proof.
  unfold starts_with_separator. destruct s as [|c s]; simpl.
  - split; [done|]. by intros [rest ?].
  - split.
    + intros [= ->]. by exists s.
    + by intros [rest [= -> _]].
Qed.

Lemma last_char_snoc (s : string) (c : Ascii.ascii) :
  last_char (s +:+ String c "") = Some c.
Proof.
  induction s as [|d s IH]; [done|].
  change (String d s +:+ String c "") with (String d (s +:+ String c "")).
  simpl. rewrite IH. by destruct s.
Qed.

Lemma last_char_separator (s : string) :
  last_char s = Some "/"%char ↔ ends_with_separator s.
Proof.
  unfold ends_with_separator. split.
  - induction s as [|c s IH]; [done|]. destruct s as [|d s].
    + intros [= ->]. by exists "".
    + intros Hlast. destruct (IH Hlast) as [front ->].
      by exists (String c front).
  - intros [front ->]. apply last_char_snoc.
Qed.

Lemma get_last (s : string) :
  s ≠ "" → String.get (String.length s - 1) s = last_char s.
Proof.
  induction s as [|c s IH]; [done|]. intros _.
  destruct s as [|d s]; [done|].
  change (last_char (String c (String d s))) with (last_char (String d s)).
  rewrite <- IH by done. simpl. by rewrite Nat.sub_0_r.
Qed.

Lemma invalid_root_false (s : string) :
  invalid_root s = false
  ↔ s ≠ "" ∧ first_char s = Some "/"%char ∧ last_char s = Some "/"%char.
Proof.
  unfold invalid_root, char_at. destruct s as [|c s].
  { split; [done|]. by intros [? _]. }
  rewrite <- get_last by done.
  change (String.length (String c s) <? 1)%nat with false.
  change (String.get 0 (String c s)) with (Some c).
  cbn [orb default first_char].
  destruct (String.get (String.length (String c s) - 1) (String c s))
    as [d|] eqn:Hd; cbn [default].
  - rewrite orb_false_iff, !negb_false_iff, !Ascii.eqb_eq. unfold id. split.
    + intros [Hc Hd']. by rewrite Hc, Hd'.
    + intros (_ & [= Hc] & [= Hd']). by rewrite Hc, Hd'.
  - rewrite orb_false_iff, !negb_false_iff, !Ascii.eqb_eq.
    split; [by intros [_ [=]]|]. by intros (_ & _ & [=]).
Qed.

Section initialization.
Context `{Framework}.
Context (host : Host) (store : EmbeddedResources).

Ltac run_init :=
  unfold RegisterRestCallback, configuration_member, json_op, update, read,
    throw, mbind, Init_bind, mret, Init_ret;
  cbn [fst snd pluginJsonConfiguration_ oe2BaseUrl_ restCallbacks rootUri
       orthancFullConfiguration_ pluginConfiguration_ description
       set_orthancFullConfiguration set_pluginConfiguration
       set_pluginJsonConfiguration set_oe2BaseUrl add_restCallback
       set_rootUri set_description].

Lemma ReadConfiguration_effective (plugin : Plugin) (configuration : json) :
  effective_configuration host store = Some configuration →
  ∃ plugin',
    ReadConfiguration host store plugin = (inr (), plugin')
    ∧ pluginJsonConfiguration_ plugin' = configuration
    ∧ oe2BaseUrl_ plugin' = oe2BaseUrl_ plugin
    ∧ restCallbacks plugin' = restCallbacks plugin
    ∧ rootUri plugin' = rootUri plugin.
Proof.
  unfold effective_configuration, ReadConfiguration. run_init.
  destruct (index (default_configuration store) "OrthancExplorer2")
    as [[section d]|]; [|done].
  cbn [mbind option_bind]. intros [= <-]. run_init.
  destruct (IsSection (host_configuration host) "OrthancExplorer2");
    eexists; done.
Qed.
Lemma member_touch key key' (m : gmap string json) :
  member (touch key m) key' = member m key'.
Proof.
  unfold member at 1. rewrite touch_lookup. case_decide; [by subst|done].
Qed.

Lemma OrthancPluginInitialize_enabled (configuration : gmap string json)
    (root : string) :
  host_version_ok host = true →
  effective_configuration host store = Some (JObject configuration) →
  isNull (member configuration "Enable") = false →
  configuration !! "Root" = Some (JString root) →
  ∃ plugin',
    OrthancPluginInitialize host store unloaded
    = (if invalid_root root then -1
       else if asBool (member configuration "ReplaceDefaultExplorer")
            is Some _ then 0 else -1,
       plugin')
    ∧ oe2BaseUrl_ plugin' = root
    ∧ if invalid_root root
      then restCallbacks plugin' = [] ∧ rootUri plugin' = None
      else rootUri plugin' = Some (root +:+ "app/")
           ∧ restCallbacks plugin'
             = ((if asBool (member configuration "ReplaceDefaultExplorer")
                 is Some true then [("/", RedirectRoot_callback)] else [])
                ++ reverse (routes root))%list.
Proof.
  intros Hversion Heff Henable Hroot.
  unfold OrthancPluginInitialize. rewrite Hversion. cbn [negb].
  destruct (ReadConfiguration_effective
              (set_description "Advanced User Interface for Orthanc" unloaded)
              _ Heff) as (p1 & Hread & Hcfg & Hurl & Hcb & Huri).
  unfold initialize. unfold mbind at 1. unfold Init_bind at 1.
  rewrite Hread. destruct p1 as [full pc pj url cbs ru descr].
  cbn in Hcfg, Hurl, Hcb, Huri. subst pj url cbs ru.
  run_init. cbn [index].
  unfold to_bool. rewrite Henable. cbn [negb].
  cbn -[touch member invalid_root String.append asBool].
  rewrite !member_touch.
  assert (member configuration "Root" = JString root) as ->
    by (unfold member; by rewrite Hroot).
  cbn -[touch member invalid_root String.append asBool].
  destruct (invalid_root root).
  { eexists. split; [reflexivity|]. done. }
  cbn -[touch member invalid_root String.append asBool].
  rewrite !member_touch.
  destruct (asBool (member configuration "ReplaceDefaultExplorer"))
    as [[]|]; cbn -[touch member String.append];
    eexists; (split; [reflexivity|]); done.
Qed.

Lemma invalid_root_refuses (configuration : gmap string json) (root : string) :
  host_version_ok host = true →
  effective_configuration host store = Some (JObject configuration) →
  isNull (member configuration "Enable") = false →
  configuration !! "Root" = Some (JString root) →
  invalid_root root = true →
  refuses host store.
Proof.
  intros Hversion Heff Henable Hroot Hinvalid.
  destruct (OrthancPluginInitialize_enabled configuration root)
    as (plugin' & Hinit & _ & Hrest); try done.
  rewrite Hinvalid in Hinit, Hrest. unfold refuses. by rewrite Hinit.
Qed.

Lemma valid_root_accepts (configuration : gmap string json) (root : string) :
  host_version_ok host = true →
  effective_configuration host store = Some (JObject configuration) →
  isNull (member configuration "Enable") = false →
  configuration !! "Root" = Some (JString root) →
  invalid_root root = false →
  accepts host store root
  ∧ (is_Some (asBool (member configuration "ReplaceDefaultExplorer")) →
     fst (OrthancPluginInitialize host store unloaded) = 0).
Proof.
  intros Hversion Heff Henable Hroot Hvalid.
  destruct (OrthancPluginInitialize_enabled configuration root)
    as (plugin' & Hinit & Hurl & Hrest); try done.
  rewrite Hvalid in Hinit, Hrest. destruct Hrest as [Huri Hcallbacks].
  unfold accepts. rewrite Hinit. cbn [fst snd]. split.
  - split; [done|]. split; [done|]. eauto.
  - by intros [b ->].
Qed.

Lemma invalid_root_true (root : string) :
  ¬ starts_with_separator root ∨ ¬ ends_with_separator root →
  invalid_root root = true.
Proof.
  intros Hmalformed. apply not_false_iff_true. intros Hvalid.
  apply invalid_root_false in Hvalid as (_ & Hfirst & Hlast).
  apply first_char_separator in Hfirst. apply last_char_separator in Hlast.
  tauto.
Qed.

(** C4: when the plugin is enabled and its configured [Root] is the string
    [root], initialization refuses to load (it returns -1 and registers
    nothing) for every [root] that does not start with [/] or does not
    end with [/]; [/ui/] is accepted, and [ui/], [/ui] and the empty
    string are refused. *)
Theorem malformed_root_refused (configuration : gmap string json)
    (root : string) :
  host_version_ok host = true →
  effective_configuration host store = Some (JObject configuration) →
  isNull (member configuration "Enable") = false →
  configuration !! "Root" = Some (JString root) →
  (¬ starts_with_separator root ∨ ¬ ends_with_separator root →
   refuses host store)
  ∧ (root = "/ui/" → accepts host store root)
  ∧ (root = "ui/" ∨ root = "/ui" ∨ root = "" → refuses host store).
Proof.
  intros Hversion Heff Henable Hroot. split; [|split].
  - intros Hmalformed.
    by eapply invalid_root_refuses, invalid_root_true.
  - intros ->. by eapply valid_root_accepts.
  - intros Hcases. eapply invalid_root_refuses; try done.
    by destruct Hcases as [->|[->| ->]].
Qed.

(** C10: when the plugin is enabled and its configured [Root] is the
    string [root], initialization accepts [root] exactly when it is not
    empty, its first character is [/] and its last character is [/]; the
    one-character string [/] is accepted, and initialization goes on with
    [/] as the base URL. *)
Theorem root_accepted_iff (configuration : gmap string json) (root : string) :
  host_version_ok host = true →
  effective_configuration host store = Some (JObject configuration) →
  isNull (member configuration "Enable") = false →
  configuration !! "Root" = Some (JString root) →
  (accepts host store root
   ↔ root ≠ "" ∧ first_char root = Some "/"%char
     ∧ last_char root = Some "/"%char)
  ∧ (root = "/" →
     accepts host store "/"
     ∧ oe2BaseUrl_ (snd (OrthancPluginInitialize host store unloaded)) = "/"
     ∧ (is_Some (asBool (member configuration "ReplaceDefaultExplorer")) →
        fst (OrthancPluginInitialize host store unloaded) = 0)).
Proof.
  intros Hversion Heff Henable Hroot. split.
  - rewrite <- invalid_root_false. split.
    + intros (_ & Huri & _).
      destruct (invalid_root root) eqn:Hinvalid; [|done].
      destruct (invalid_root_refuses configuration root) as (_ & _ & Hnone);
        try done.
      congruence.
    + intros Hvalid. by eapply valid_root_accepts.
  - intros ->.
    destruct (valid_root_accepts configuration "/") as [Haccepts Hcode];
      try done.
    split; [done|]. split; [apply Haccepts|done].
Qed.

End initialization.

Lemma sample_enabled (root : string) :
  effective_configuration (host_with_root root) sample_store
  = Some (JObject (configuration_with_root root))
  ∧ isNull (member (configuration_with_root root) "Enable") = false
  ∧ configuration_with_root root !! "Root" = Some (JString root).
Proof. vm_compute. repeat split; reflexivity. Defined.

Lemma malformed_root_refused_witness :
  refuses (host_with_root "ui") sample_store
  ∧ accepts (host_with_root "/ui/") sample_store "/ui/".
Proof.
  split.
  - destruct (sample_enabled "ui") as (Heff & Henable & Hroot).
    refine (proj1 (malformed_root_refused (host_with_root "ui") sample_store
                     (configuration_with_root "ui") "ui"
                     eq_refl Heff Henable Hroot) _).
    left. intros [rest Hrest]. discriminate Hrest.
  - destruct (sample_enabled "/ui/") as (Heff & Henable & Hroot).
    exact (proj1 (proj2 (malformed_root_refused (host_with_root "/ui/")
                           sample_store (configuration_with_root "/ui/")
                           "/ui/" eq_refl Heff Henable Hroot)) eq_refl).
Defined.

Lemma root_accepted_iff_witness :
  accepts (host_with_root "/") sample_store "/"
  ∧ oe2BaseUrl_ (snd (OrthancPluginInitialize (host_with_root "/")
                        sample_store unloaded)) = "/"
  ∧ fst (OrthancPluginInitialize (host_with_root "/") sample_store unloaded)
    = 0.
Proof.
  destruct (sample_enabled "/") as (Heff & Henable & Hroot).
  destruct (proj2 (root_accepted_iff (host_with_root "/") sample_store
                     (configuration_with_root "/") "/"
                     eq_refl Heff Henable Hroot) eq_refl)
    as (Haccepts & Hurl & Hcode).
  split; [exact Haccepts|]. split; [exact Hurl|].
  apply Hcode. exists false. vm_compute. reflexivity.
Defined.

Example root_routes :
  restCallbacks (snd (OrthancPluginInitialize (host_with_root "/")
                        sample_store unloaded))
  = reverse (routes "/")
  ∧ rootUri (snd (OrthancPluginInitialize (host_with_root "/")
                    sample_store unloaded)) = Some "/app/".
Proof. vm_compute. split; reflexivity. Qed.

(** * Further properties *)

(** ** MergeJson *)

(** X1: [MergeJson] never changes the type of its target: an object stays
    an object, and any other target is returned as it is. *)
Theorem MergeJson_keeps_type (a b : json) : type (MergeJson a b) = type a.
Proof.
  destruct b as [| | | | | | |mb]; try done.
  destruct a as [| | | | | | |ma]; try done.
Qed.

(** X2: the members of the merge of two objects are those of the target
    together with those of the source: no member is dropped and none
    appears from elsewhere. *)
Theorem MergeJson_members (ma mb : gmap string json) :
  ∃ mr, MergeJson (JObject ma) (JObject mb) = JObject mr
    ∧ dom mr = dom ma ∪ dom mb.
Proof.
  eexists. split; [apply MergeJson_unfold|].
  apply set_eq. intros key.
  rewrite elem_of_union, !elem_of_dom, MergeJson_fold_lookup.
  destruct (mb !! key) as [bkey|].
  - split; [intros _; right|intros _]; eauto.
  - split; [by left|]. intros [Ha|[x Hx]]; [done|discriminate Hx].
Qed.

(** X3: an empty object is neutral on both sides: merging it into a
    document changes nothing, and merging an object into the empty object
    gives that object. *)
Theorem MergeJson_empty (a : json) (mb : gmap string json) :
  MergeJson a (JObject ∅) = a
  ∧ MergeJson (JObject ∅) (JObject mb) = JObject mb.
Proof.
  split.
  - by destruct a as [| | | | | | |ma].
  - rewrite MergeJson_unfold. f_equal. apply map_eq. intros key.
    rewrite MergeJson_fold_lookup, lookup_empty.
    by destruct (mb !! key).
Qed.

(** X4: merging a document into itself changes nothing. *)
Theorem MergeJson_same (x : json) : MergeJson x x = x.
Proof.
  induction x as [| | | | | | |m IH] using json_ind'; try done.
  rewrite MergeJson_unfold. f_equal. apply map_eq. intros key.
  rewrite MergeJson_fold_lookup.
  destruct (m !! key) as [v|] eqn:Hv; [|done].
  f_equal. pose proof (IH key v Hv) as Hself. simpl in Hself.
  by destruct v.
Qed.

Lemma merged_member_leaf (oa : option json) (v : json) :
  isObject v = false → merged_member oa v = v.
Proof. intros Hv. destruct oa as [[]|]; try done; by destruct v. Qed.

Lemma get_path_leaf (p : list string) (v w : json) :
  p ≠ [] → isObject v = false → get_path p v = Some w → False.
Proof. destruct p; [done|]. by destruct v. Qed.

(** X5: the source wins at its leaves.  When the target is an object, every
    key path at which the source holds a value that is not an object
    (a scalar or an array) holds that same value in the result, whatever
    the target had on the way. *)
Theorem MergeJson_source_wins (p : list string) (target source v : json) :
  isObject target = true →
  p ≠ [] →
  get_path p source = Some v →
  isObject v = false →
  get_path p (MergeJson target source) = Some v.
Proof.
  revert target source. induction p as [|key p IH]; [done|].
  intros target source Htarget _ Hsource Hv.
  destruct target as [| | | | | | |mt]; try done.
  destruct source as [| | | | | | |ms]; try done.
  rewrite MergeJson_unfold.
  change (get_path (key :: p) (JObject ?m)) with (m !! key ≫= get_path p)
    in *.
  rewrite MergeJson_fold_lookup.
  destruct (ms !! key) as [skey|]; [|done].
  cbn [mbind option_bind] in *.
  destruct (decide (p = [])) as [->|Hp].
  { injection Hsource as ->. by rewrite merged_member_leaf. }
  destruct skey as [| | | | | | |y];
    try (exfalso; eapply (get_path_leaf p);
         [exact Hp| |exact Hsource]; reflexivity).
  destruct (mt !! key) as [[| | | | | | |x]|]; try done.
  by apply IH.
Qed.

Lemma MergeJson_source_wins_witness :
  get_path ["UiOptions"; "b"] (MergeJson sample_default sample_override)
  = Some (JInt 2).
Proof.
  apply MergeJson_source_wins; [reflexivity|discriminate| |reflexivity].
  vm_compute. reflexivity.
Defined.

(** ** The handlers *)

Section handlers_properties.
Context `{Framework}.

(** X6: every handler answers a request whose method is not GET with
    Method-Not-Allowed, naming GET as the allowed method; the configuration
    handler then leaves the plugin's state as it was. *)
Theorem handlers_refuse_other_methods (store : EmbeddedResources)
    (plugin : Plugin) (host : Host) (folder : DirectoryResourceId)
    (file : FileResourceId) (mime : MimeType)
    (request : OrthancPluginHttpRequest) :
  method request ≠ OrthancPluginHttpMethod_Get →
  ServeEmbeddedFolder store plugin folder request = SendMethodNotAllowed "GET"
  ∧ ServeEmbeddedFile store file mime request = SendMethodNotAllowed "GET"
  ∧ RedirectRoot plugin request = SendMethodNotAllowed "GET"
  ∧ GetOE2Configuration plugin host request
    = Some (SendMethodNotAllowed "GET", plugin).
Proof.
  intros Hmethod.
  unfold ServeEmbeddedFolder, ServeEmbeddedFile, RedirectRoot,
    GetOE2Configuration.
  by rewrite !bool_decide_eq_true_2.
Qed.

(** X7: on a GET, the directory handler serves the stored content
    byte for byte unless the path is an entry script (JavaScript type and
    path starting with [/index.]) whose substitution succeeds: other
    assets are never altered, and an entry script whose substitution throws
    is served as stored. *)
Theorem ServeEmbeddedFolder_verbatim (store : EmbeddedResources)
    (plugin : Plugin) (folder : DirectoryResourceId)
    (request : OrthancPluginHttpRequest) (captured : string) :
  method request = OrthancPluginHttpMethod_Get →
  groups request !! 0%nat = Some captured →
  let path := "/" +:+ captured in
  let fileContent := GetDirectoryResource store folder path in
  AutodetectMimeType path ≠ MimeType_JavaScript
  ∨ StartsWith path "/index." = false
  ∨ SubstituteVariables fileContent
      (substitution_dictionary (oe2BaseUrl_ plugin)) = None →
  ServeEmbeddedFolder store plugin folder request
  = AnswerBuffer fileContent (EnumerationToString (AutodetectMimeType path)).
Proof.
  intros Hget Hgroup path fileContent Hcases. subst path fileContent.
  unfold ServeEmbeddedFolder. rewrite Hget, Hgroup.
  rewrite bool_decide_eq_false_2 by (by intros []).
  cbn [default]. unfold id. f_equal.
  unfold is_index_script, substitute.
  destruct Hcases as [Hmime|[Hstart|Hthrow]].
  - by rewrite bool_decide_eq_false_2.
  - by rewrite Hstart, andb_false_r.
  - rewrite Hthrow. by destruct (_ && _).
Qed.

Lemma GetPluginsConfiguration_configuration (configuration : json)
    (plugin : Plugin) (host : Host) :
  GetPluginsConfiguration (set_pluginJsonConfiguration configuration plugin)
    host
  = GetPluginsConfiguration plugin host.
Proof.
  unfold GetPluginsConfiguration.
  change (oe2BaseUrl_ (set_pluginJsonConfiguration configuration plugin))
    with (oe2BaseUrl_ plugin).
  destruct (SplitUriComponents (oe2BaseUrl_ plugin)) as [components|];
    [|done].
  cbn [mbind option_bind].
  destruct (elements (RestApiGet host "/plugins")) as [pluginList|]; [|done].
  cbn [mbind option_bind]. generalize JNull.
  induction pluginList as [|element pluginList IH]; intros acc; [done|].
  cbn [resolve_plugins].
  change (resolve_plugin (set_pluginJsonConfiguration configuration plugin))
    with (resolve_plugin plugin).
  destruct (resolve_plugin plugin host _ acc element); [|done].
  cbn [mbind option_bind]. apply IH.
Qed.

Lemma touch_touch key (m : gmap string json) :
  touch key (touch key m) = touch key m.
Proof.
  unfold touch at 1. rewrite touch_lookup, decide_True by done. done.
Qed.

(** X8: on a GET, when the plugin's configuration is an object and the
    resolver returns, the configuration handler answers with a JSON
    document that has exactly the two members [UiOptions] (null when the
    configuration has none) and [Plugins]; the only change to the plugin's
    state is that the configuration now has a [UiOptions] member. *)
Theorem GetOE2Configuration_answer (plugin : Plugin) (host : Host)
    (request : OrthancPluginHttpRequest)
    (configuration : gmap string json) (plugins : json) :
  method request = OrthancPluginHttpMethod_Get →
  pluginJsonConfiguration_ plugin = JObject configuration →
  GetPluginsConfiguration plugin host = Some plugins →
  GetOE2Configuration plugin host request
  = Some (AnswerBuffer
            (toStyledString
               (JObject {[ "Plugins" := plugins;
                           "UiOptions" := member configuration "UiOptions" ]}))
            "application/json",
          set_pluginJsonConfiguration
            (JObject (touch "UiOptions" configuration)) plugin).
Proof.
  intros Hget Hconfiguration Hplugins. unfold GetOE2Configuration.
  rewrite Hget, bool_decide_eq_false_2 by (by intros []).
  rewrite Hconfiguration. cbn [index mbind option_bind assign].
  rewrite GetPluginsConfiguration_configuration, Hplugins.
  reflexivity.
Qed.

(** X9: a second GET on the configuration handler, from the state the
    first one left, gives the same answer and leaves that state
    unchanged. *)
Theorem GetOE2Configuration_stable (plugin plugin' : Plugin) (host : Host)
    (request : OrthancPluginHttpRequest) (answer : Answer) :
  method request = OrthancPluginHttpMethod_Get →
  GetOE2Configuration plugin host request = Some (answer, plugin') →
  GetOE2Configuration plugin' host request = Some (answer, plugin').
Proof.
  intros Hget. unfold GetOE2Configuration.
  rewrite Hget, bool_decide_eq_false_2 by (by intros []).
  assert (Hsecond : ∀ m v,
    index (JObject (touch "UiOptions" m)) "UiOptions"
    = Some (v, JObject (touch "UiOptions" m)) → 
    member m "UiOptions" = v →
    ∀ plugins,
    GetPluginsConfiguration plugin host = Some plugins →
    (index (pluginJsonConfiguration_
              (set_pluginJsonConfiguration (JObject (touch "UiOptions" m))
                 plugin)) "UiOptions"
     ≫= λ '(uiOptions, configuration),
          let plugin0 :=
            set_pluginJsonConfiguration configuration
              (set_pluginJsonConfiguration (JObject (touch "UiOptions" m))
                 plugin) in
          assign JNull "UiOptions" uiOptions
          ≫= λ oe2Configuration,
               GetPluginsConfiguration plugin0 host
               ≫= λ plugins0,
                    assign oe2Configuration "Plugins" plugins0
                    ≫= λ oe2Configuration0,
                         Some (AnswerBuffer (toStyledString oe2Configuration0)
                                 "application/json", plugin0))
    = Some (AnswerBuffer
              (toStyledString
                 (JObject {[ "Plugins" := plugins; "UiOptions" := v ]}))
              "application/json",
            set_pluginJsonConfiguration (JObject (touch "UiOptions" m))
              plugin)).
  { intros m v Hindex Hv plugins Hplugins.
    cbn [pluginJsonConfiguration_ set_pluginJsonConfiguration].
    rewrite Hindex. cbn [mbind option_bind assign].
    rewrite !GetPluginsConfiguration_configuration, Hplugins. reflexivity. }
  destruct (pluginJsonConfiguration_ plugin) as [| | | | | | |m] eqn:Hm;
    try done; cbn [index mbind option_bind assign];
    rewrite GetPluginsConfiguration_configuration;
    (destruct (GetPluginsConfiguration plugin host) as [plugins|] eqn:Hp;
       [|done]);
    cbn [mbind option_bind assign]; intros [= <- <-].
  - change (JObject {["UiOptions" := JNull]})
      with (JObject (touch "UiOptions" (∅ : gmap string json))).
    by apply Hsecond.
  - apply Hsecond; [|done|done].
    cbn [index]. by rewrite member_touch, touch_touch.
Qed.

End handlers_properties.

Lemma handlers_refuse_other_methods_witness :
  ServeEmbeddedFolder sample_store sample_plugin WEB_APPLICATION_ASSETS
    {| method := OrthancPluginHttpMethod_Delete; groups := ["style.css"] |}
  = SendMethodNotAllowed "GET".
Proof.
  refine (proj1 (handlers_refuse_other_methods sample_store sample_plugin
    sample_host WEB_APPLICATION_ASSETS WEB_APPLICATION_INDEX MimeType_Html
    {| method := OrthancPluginHttpMethod_Delete; groups := ["style.css"] |}
    _)).
  discriminate.
Defined.

Lemma ServeEmbeddedFolder_verbatim_witness :
  ServeEmbeddedFolder store_with_open_token sample_plugin
    WEB_APPLICATION_ASSETS
    {| method := OrthancPluginHttpMethod_Get; groups := ["index.bad.js"] |}
  = AnswerBuffer "load('${OE2_BASE_URL');" "application/javascript".
Proof.
  refine (ServeEmbeddedFolder_verbatim store_with_open_token sample_plugin
    WEB_APPLICATION_ASSETS
    {| method := OrthancPluginHttpMethod_Get; groups := ["index.bad.js"] |}
    "index.bad.js" eq_refl eq_refl _).
  right. right. vm_compute. reflexivity.
Defined.

Lemma GetOE2Configuration_answer_witness :
  fst <$> GetOE2Configuration sample_plugin sample_host sample_get
  = Some (AnswerBuffer
            (toStyledString
               (JObject
                  {[ "Plugins" :=
                       default JNull
                         (GetPluginsConfiguration sample_plugin sample_host);
                     "UiOptions" :=
                       JObject {[ "a" := JInt 1; "b" := JInt 2 ]} ]}))
            "application/json").
Proof.
  rewrite (GetOE2Configuration_answer sample_plugin sample_host sample_get
             {[ "Root" := JString "/ui/"; "Enable" := JBool true;
                "UiOptions" := JObject {[ "a" := JInt 1; "b" := JInt 2 ]};
                "ReplaceDefaultExplorer" := JNull ]}
             (default JNull
                (GetPluginsConfiguration sample_plugin sample_host))).
  - vm_compute. reflexivity.
  - reflexivity.
  - vm_compute. reflexivity.
  - vm_compute. reflexivity.
Defined.

Lemma GetOE2Configuration_stable_witness :
  GetOE2Configuration (snd sample_first_answer) sample_host sample_get
  = Some (fst sample_first_answer, snd sample_first_answer).
Proof.
  apply (GetOE2Configuration_stable sample_plugin).
  - reflexivity.
  - vm_compute. reflexivity.
Defined.

(** ** The resolver *)

Section resolver_properties.
Context `{Framework}.
Context (plugin : Plugin) (host : Host).

Lemma plugin_record_other (pre pluginName : string) :
  info_record host pluginName →
  ∃ m, plugin_record plugin host pre pluginName = Some (JObject m)
    ∧ ∀ key, key ≠ "Enabled" → key ≠ "RootUri" →
        m !! key = get_path [key] (GetPluginInfo host pluginName).
Proof.
  intros Hinfo. unfold plugin_record.
  destruct (rewrite_RootUri_record host pre pluginName Hinfo)
    as (info & -> & Hshape & Hkeys & _).
  cbn [mbind option_bind].
  destruct (assign_lookup info "Enabled" (JBool true) Hshape)
    as (m1 & -> & _ & Hother1).
  cbn [mbind option_bind].
  destruct (enabled_override plugin pluginName) as [enabled|].
  - destruct (assign_lookup (JObject m1) "Enabled" (JBool enabled))
      as (m2 & -> & _ & Hother2); [eauto|].
    exists m2. split; [done|]. intros key Henabled Hroot.
    by rewrite Hother2, get_path_object, Hother1, Hkeys.
  - exists m1. split; [done|]. intros key Henabled Hroot.
    by rewrite Hother1, Hkeys.
Qed.

Lemma plugin_record_malformed (pre pluginName : string) :
  ¬ info_record host pluginName →
  plugin_record plugin host pre pluginName = None.
Proof.
  unfold info_record, plugin_record, rewrite_RootUri.
  destruct (GetPluginInfo host pluginName) as [| | | | | | |info];
    try done; try (by intros []).
  cbn [isMember subscript]. unfold member.
  destruct (info !! "RootUri") as [v|]; [|by intros []].
  rewrite bool_decide_eq_true_2 by eauto.
  destruct v; try (by intros []); done.
Qed.

Lemma resolve_plugins_malformed (pre pluginName : string)
    (names : list string) (acc : json) :
  pluginName ∈ names →
  pluginName ≠ "explorer.js" →
  plugin_record plugin host pre pluginName = None →
  resolve_plugins plugin host pre acc (JString <$> names) = None.
Proof.
  intros Hin Hname Hrecord. revert acc.
  induction names as [|name names IH]; intros acc;
    [by apply elem_of_nil in Hin|].
  rewrite fmap_cons. cbn [resolve_plugins].
  destruct (decide (pluginName = name)) as [<-|Hne].
  - unfold resolve_plugin. cbn [asString mbind option_bind].
    destruct (String.eqb_spec pluginName "explorer.js"); [done|].
    by rewrite Hrecord.
  - destruct (resolve_plugin plugin host pre acc (JString name)); [|done].
    cbn [mbind option_bind]. apply IH.
    apply elem_of_cons in Hin as [?|?]; done.
Qed.

Lemma resolve_plugins_skipped (pre : string) (names : list string)
    (acc : json) :
  (∀ n, n ∈ names → n = "explorer.js") →
  resolve_plugins plugin host pre acc (JString <$> names) = Some acc.
Proof.
  induction names as [|name names IH]; intros Hnames; [done|].
  rewrite fmap_cons. cbn [resolve_plugins]. unfold resolve_plugin.
  cbn [asString mbind option_bind].
  rewrite (Hnames name) by (by left). cbn [String.eqb Ascii.eqb].
  change ("explorer.js" =? "explorer.js")%string with true.
  cbn [mbind option_bind]. apply IH. intros n Hn. apply Hnames. by right.
Qed.

(** X10: the resolver copies the host's information on a plugin: every
    member of the host's record other than ["Enabled"] and ["RootUri"] is
    in the plugin's entry with the same value, and the entry has no other
    member. *)
Theorem resolver_copies_info (components names : list string)
    (pluginName key : string) :
  SplitUriComponents (oe2BaseUrl_ plugin) = Some components →
  plugin_list host names →
  (∀ n, n ∈ names → info_record host n) →
  pluginName ∈ names →
  pluginName ≠ "explorer.js" →
  key ≠ "Enabled" →
  key ≠ "RootUri" →
  ∃ out,
    GetPluginsConfiguration plugin host = Some out
    ∧ get_path [pluginName; key] out
      = get_path [key] (GetPluginInfo host pluginName).
Proof.
  intros Hsplit Hlist Hinfo Hin Hname Henabled Hroot.
  destruct (GetPluginsConfiguration_lookup plugin host components names
              Hsplit Hlist Hinfo) as (out & Hout & Hlookup).
  destruct (plugin_record_other (parent_tokens (length components))
              pluginName (Hinfo _ Hin)) as (m & Hrecord & Hkeys).
  exists out. split; [done|].
  rewrite (get_path_step pluginName), Hlookup.
  rewrite bool_decide_eq_true_2, Hrecord by done.
  cbn [mbind option_bind]. rewrite get_path_object. by apply Hkeys.
Qed.

(** X11: when the query of the plugin list fails, or the list is empty or
    names only [explorer.js], the resolver returns the null value, not an
    empty object. *)
Theorem resolver_null (components names : list string) :
  SplitUriComponents (oe2BaseUrl_ plugin) = Some components →
  host_rest_get host "/plugins" = None
  ∨ (plugin_list host names ∧ ∀ n, n ∈ names → n = "explorer.js") →
  GetPluginsConfiguration plugin host = Some JNull.
Proof.
  intros Hsplit Hcases. unfold GetPluginsConfiguration.
  rewrite Hsplit. cbn [mbind option_bind].
  destruct Hcases as [Hfail|[Hlist Hnames]].
  - unfold RestApiGet. by rewrite Hfail.
  - rewrite Hlist. cbn [elements mbind option_bind].
    by apply resolve_plugins_skipped.
Qed.

(** X12: the resolver throws when the host's information on a listed
    plugin other than [explorer.js] is neither a record nor null, or has a
    ["RootUri"] that is an array or an object: the conditions on the
    information are needed, not only sufficient. *)
Theorem resolver_throws_on_malformed_info (components names : list string)
    (pluginName : string) :
  SplitUriComponents (oe2BaseUrl_ plugin) = Some components →
  plugin_list host names →
  pluginName ∈ names →
  pluginName ≠ "explorer.js" →
  ¬ info_record host pluginName →
  GetPluginsConfiguration plugin host = None.
Proof.
  intros Hsplit Hlist Hin Hname Hmalformed. unfold GetPluginsConfiguration.
  rewrite Hsplit, Hlist. cbn [elements mbind option_bind].
  eapply resolve_plugins_malformed; [done|done|].
  by apply plugin_record_malformed.
Qed.

Lemma resolver_enabled (components names : list string)
    (pluginName : string) :
  SplitUriComponents (oe2BaseUrl_ plugin) = Some components →
  plugin_list host names →
  (∀ n, n ∈ names → info_record host n) →
  pluginName ∈ names →
  pluginName ≠ "explorer.js" →
  ∃ out,
    GetPluginsConfiguration plugin host = Some out
    ∧ get_path [pluginName; "Enabled"] out
      = Some (JBool (default true (enabled_override plugin pluginName))).
Proof.
  intros Hsplit Hlist Hinfo Hin Hname.
  destruct (GetPluginsConfiguration_lookup plugin host components names
              Hsplit Hlist Hinfo) as (out & Hout & Hlookup).
  destruct (plugin_record_spec plugin host (parent_tokens (length components))
              pluginName (Hinfo _ Hin)) as (m & Hrecord & Henabled & _).
  exists out. split; [done|].
  rewrite (get_path_step pluginName), Hlookup.
  rewrite bool_decide_eq_true_2, Hrecord by done.
  cbn [mbind option_bind]. by rewrite get_path_object.
Qed.

(** X13: the four plugins [connectivity-checks], [transfers], [web-viewer]
    and [wsi] are reported enabled whenever the host lists them, whatever
    the configuration and whatever ["Enabled"] the host's record has. *)
Theorem always_enabled_plugins (components names : list string)
    (pluginName : string) :
  pluginName ∈ always_enabled →
  SplitUriComponents (oe2BaseUrl_ plugin) = Some components →
  plugin_list host names →
  (∀ n, n ∈ names → info_record host n) →
  pluginName ∈ names →
  ∃ out,
    GetPluginsConfiguration plugin host = Some out
    ∧ get_path [pluginName; "Enabled"] out = Some (JBool true).
Proof.
  intros Halways Hsplit Hlist Hinfo Hin.
  assert (pluginName ≠ "explorer.js"
          ∧ enabled_override plugin pluginName = Some true) as [Hname Hrule].
  { unfold always_enabled in Halways.
    rewrite !elem_of_cons, elem_of_nil in Halways.
    repeat destruct Halways as [->|Halways]; done. }
  destruct (resolver_enabled components names pluginName)
    as (out & Hout & Henabled); try done.
  exists out. split; [done|]. by rewrite Henabled, Hrule.
Qed.

(** X14: a plugin that the chain maps to a section alone
    ([osimis-web-viewer], [python], [serve-folders], [stone-webviewer]) is
    reported enabled exactly when the configuration has that section, as
    an object; the content of the section plays no part. *)
Theorem section_presence_enablement (components names : list string)
    (pluginName sectionName : string) :
  (pluginName, sectionName) ∈ section_rules →
  SplitUriComponents (oe2BaseUrl_ plugin) = Some components →
  plugin_list host names →
  (∀ n, n ∈ names → info_record host n) →
  pluginName ∈ names →
  ∃ out enabled,
    GetPluginsConfiguration plugin host = Some out
    ∧ get_path [pluginName; "Enabled"] out = Some (JBool enabled)
    ∧ (enabled = true
       ↔ ∃ section,
           orthancFullConfiguration_ plugin !! sectionName
           = Some (JObject section)).
Proof.
  intros Hrule Hsplit Hlist Hinfo Hin.
  assert (pluginName ≠ "explorer.js"
          ∧ enabled_override plugin pluginName
            = Some (IsSection (orthancFullConfiguration_ plugin) sectionName))
    as [Hname Hoverride].
  { unfold section_rules in Hrule.
    rewrite !elem_of_cons, elem_of_nil in Hrule.
    repeat destruct Hrule as [[= -> ->]|Hrule]; try done;
      (split; [done|]); unfold enabled_override, GetPluginConfiguration;
      cbn [String.eqb Ascii.eqb Bool.eqb];
      by destruct (IsSection _ _). }
  destruct (resolver_enabled components names pluginName)
    as (out & Hout & Henabled); try done.
  exists out, (IsSection (orthancFullConfiguration_ plugin) sectionName).
  split; [done|]. split; [by rewrite Henabled, Hoverride|].
  unfold IsSection.
  destruct (orthancFullConfiguration_ plugin !! sectionName)
    as [[| | | | | | |section]|]; (split; [by eauto|by intros [? ?]]).
Qed.

(** X15: the [authorization] plugin is reported enabled exactly when the
    configuration has an [Authorization] section with a [WebService]
    member, whatever the value of that member. *)
Theorem authorization_enablement (components names : list string) :
  SplitUriComponents (oe2BaseUrl_ plugin) = Some components →
  plugin_list host names →
  (∀ n, n ∈ names → info_record host n) →
  "authorization" ∈ names →
  ∃ out enabled,
    GetPluginsConfiguration plugin host = Some out
    ∧ get_path ["authorization"; "Enabled"] out = Some (JBool enabled)
    ∧ (enabled = true
       ↔ ∃ section,
           orthancFullConfiguration_ plugin !! "Authorization"
           = Some (JObject section)
           ∧ is_Some (section !! "WebService")).
Proof.
  intros Hsplit Hlist Hinfo Hin.
  destruct (resolver_enabled components names "authorization")
    as (out & Hout & Henabled); try done.
  exists out. eexists. split; [done|]. split; [exact Henabled|].
  unfold enabled_override, GetPluginConfiguration, IsSection, GetSection.
  cbn [String.eqb Ascii.eqb Bool.eqb default].
  destruct (orthancFullConfiguration_ plugin !! "Authorization")
    as [[| | | | | | |section]|]; cbn [isMember default];
    try (split; [done|by intros (? & ? & _)]).
  unfold id. rewrite bool_decide_eq_true. split.
  - intros Hmember. by exists section.
  - by intros (? & [= <-] & ?).
Qed.

End resolver_properties.

Lemma sections_registry :
  SplitUriComponents (oe2BaseUrl_ plugin_with_sections) = Some ["ui"]
  ∧ plugin_list host_with_sections listed_with_sections
  ∧ ∀ n, n ∈ listed_with_sections → info_record host_with_sections n.
Proof.
  split; [vm_compute; reflexivity|]. split; [vm_compute; reflexivity|].
  intros n Hn. unfold listed_with_sections in Hn.
  rewrite !elem_of_cons, elem_of_nil in Hn.
  repeat destruct Hn as [->|Hn]; [..|destruct Hn]; vm_compute; exact I.
Defined.

Lemma resolver_copies_info_witness :
  ∃ out,
    GetPluginsConfiguration plugin_with_sections host_with_sections = Some out
    ∧ get_path ["wsi"; "Version"] out = Some (JString "2.0").
Proof.
  destruct sections_registry as (Hsplit & Hlist & Hinfo).
  pose proof (resolver_copies_info plugin_with_sections host_with_sections
                ["ui"] listed_with_sections "wsi" "Version" Hsplit Hlist Hinfo) as Hcopy.
  destruct Hcopy as (out & Hout & Hversion).
  - repeat (first [apply list_elem_of_here | apply list_elem_of_further]).
  - discriminate.
  - discriminate.
  - discriminate.
  - exists out. split; [exact Hout|]. rewrite Hversion.
    vm_compute. reflexivity.
Defined.

Lemma resolver_null_witness :
  GetPluginsConfiguration sample_plugin (host_with_root "/ui/") = Some JNull.
Proof.
  apply (resolver_null sample_plugin (host_with_root "/ui/") ["ui"] []).
  - vm_compute. reflexivity.
  - left. reflexivity.
Defined.

Lemma resolver_throws_on_malformed_info_witness :
  GetPluginsConfiguration sample_plugin host_with_malformed_info = None.
Proof.
  apply (resolver_throws_on_malformed_info sample_plugin
           host_with_malformed_info ["ui"] ["wsi"] "wsi").
  - vm_compute. reflexivity.
  - vm_compute. reflexivity.
  - apply list_elem_of_here.
  - discriminate.
  - vm_compute. intros Hrecord. exact Hrecord.
Defined.

Lemma always_enabled_plugins_witness :
  ∃ out,
    GetPluginsConfiguration plugin_with_sections host_with_sections = Some out
    ∧ get_path ["wsi"; "Enabled"] out = Some (JBool true).
Proof.
  destruct sections_registry as (Hsplit & Hlist & Hinfo).
  apply (always_enabled_plugins plugin_with_sections host_with_sections
           ["ui"] listed_with_sections "wsi"); [|exact Hsplit|exact Hlist|exact Hinfo|].
  - repeat (first [apply list_elem_of_here | apply list_elem_of_further]).
  - repeat (first [apply list_elem_of_here | apply list_elem_of_further]).
Defined.

Lemma section_presence_enablement_witness :
  ∃ out,
    GetPluginsConfiguration plugin_with_sections host_with_sections = Some out
    ∧ get_path ["stone-webviewer"; "Enabled"] out = Some (JBool true).
Proof.
  destruct sections_registry as (Hsplit & Hlist & Hinfo).
  pose proof (section_presence_enablement plugin_with_sections
                host_with_sections ["ui"] listed_with_sections "stone-webviewer"
                "StoneWebViewer") as Hrule.
  destruct Hrule as (out & enabled & Hout & Henabled & Hiff);
    [|exact Hsplit|exact Hlist|exact Hinfo|apply list_elem_of_here|].
  - repeat (first [apply list_elem_of_here | apply list_elem_of_further]).
  - exists out. split; [exact Hout|]. rewrite Henabled. do 2 f_equal.
    apply Hiff. exists ∅. vm_compute. reflexivity.
Defined.

Lemma authorization_enablement_witness :
  ∃ out,
    GetPluginsConfiguration plugin_with_sections host_with_sections = Some out
    ∧ get_path ["authorization"; "Enabled"] out = Some (JBool true).
Proof.
  destruct sections_registry as (Hsplit & Hlist & Hinfo).
  pose proof (authorization_enablement plugin_with_sections
                host_with_sections ["ui"] listed_with_sections Hsplit Hlist Hinfo) as Hrule.
  destruct Hrule as (out & enabled & Hout & Henabled & Hiff).
  - repeat (first [apply list_elem_of_here | apply list_elem_of_further]).
  - exists out. split; [exact Hout|]. rewrite Henabled. do 2 f_equal.
    apply Hiff. exists {[ "WebService" := JNull ]}.
    split; [vm_compute; reflexivity|]. exists JNull.
    vm_compute. reflexivity.
Defined.

(** ** Initialization *)

Ltac step_init :=
  unfold RegisterRestCallback, configuration_member, json_op, update, read,
    throw, mbind, Init_bind, mret, Init_ret;
  cbn [fst snd pluginJsonConfiguration_ oe2BaseUrl_ restCallbacks rootUri
       orthancFullConfiguration_ pluginConfiguration_ description
       set_orthancFullConfiguration set_pluginConfiguration
       set_pluginJsonConfiguration set_oe2BaseUrl add_restCallback
       set_rootUri set_description].

Section initialization_properties.
Context `{Framework}.
Context (host : Host) (store : EmbeddedResources).

Lemma ReadConfiguration_throws (plugin : Plugin) :
  effective_configuration host store = None →
  ∃ plugin',
    ReadConfiguration host store plugin = (inl Json_LogicError, plugin')
    ∧ oe2BaseUrl_ plugin' = oe2BaseUrl_ plugin
    ∧ restCallbacks plugin' = restCallbacks plugin
    ∧ rootUri plugin' = rootUri plugin.
Proof.
  unfold effective_configuration, ReadConfiguration. step_init.
  destruct (index (default_configuration store) "OrthancExplorer2")
    as [[section d]|]; [done|].
  intros _. eexists. done.
Qed.

(** Where initialization stops before the validation of the base URL:
    reading the configuration throws, the configuration is neither null
    nor an object, or its ["Root"] does not convert to a string. *)
Lemma OrthancPluginInitialize_early_throw :
  host_version_ok host = true →
  match effective_configuration host store with
  | None => True
  | Some JNull => False
  | Some (JObject m) =>
      isNull (member m "Enable") = false
      ∧ asString valueToString (member m "Root") = None
  | Some _ => True
  end →
  ∃ plugin',
    OrthancPluginInitialize host store unloaded = (-1, plugin')
    ∧ restCallbacks plugin' = [] ∧ rootUri plugin' = None.
Proof.
  intros Hversion Hcases.
  unfold OrthancPluginInitialize. rewrite Hversion. cbn [negb].
  unfold initialize. unfold mbind at 1. unfold Init_bind at 1.
  destruct (effective_configuration host store) as [configuration|] eqn:Heff.
  - destruct (ReadConfiguration_effective host store
                (set_description "Advanced User Interface for Orthanc"
                   unloaded) _ Heff)
      as (p1 & Hread & Hcfg & Hurl & Hcb & Huri).
    rewrite Hread. destruct p1 as [full pc pj url cbs ru descr].
    cbn in Hcfg, Hurl, Hcb, Huri. subst pj url cbs ru.
    step_init.
    destruct configuration as [| | | | | | |m]; try done;
      try (cbn [index]; eexists; split; [reflexivity|done]).
    destruct Hcases as [Henable Hroot].
    cbn [index]. unfold to_bool. rewrite Henable. cbn [negb].
    cbn -[touch member invalid_root String.append asBool asString].
    rewrite !member_touch, Hroot. eexists. split; [reflexivity|done].
  - destruct (ReadConfiguration_throws
                (set_description "Advanced User Interface for Orthanc"
                   unloaded) Heff)
      as (p1 & Hread & Hurl & Hcb & Huri).
    rewrite Hread. eexists. split; [reflexivity|done].
Qed.

Lemma OrthancPluginInitialize_disabled (configuration : json) :
  host_version_ok host = true →
  effective_configuration host store = Some configuration →
  match configuration with
  | JNull => True
  | JObject m => isNull (member m "Enable") = true
  | _ => False
  end →
  ∃ plugin',
    OrthancPluginInitialize host store unloaded = (0, plugin')
    ∧ oe2BaseUrl_ plugin' = ""
    ∧ restCallbacks plugin' = [] ∧ rootUri plugin' = None.
Proof.
  intros Hversion Heff Hdisabled.
  unfold OrthancPluginInitialize. rewrite Hversion. cbn [negb].
  unfold initialize. unfold mbind at 1. unfold Init_bind at 1.
  destruct (ReadConfiguration_effective host store
              (set_description "Advanced User Interface for Orthanc"
                 unloaded) _ Heff)
    as (p1 & Hread & Hcfg & Hurl & Hcb & Huri).
  rewrite Hread. destruct p1 as [full pc pj url cbs ru descr].
  cbn in Hcfg, Hurl, Hcb, Huri. subst pj url cbs ru.
  step_init.
  destruct configuration as [| | | | | | |m]; try done.
  - cbn [index to_bool isNull type negb]. eexists. split; [reflexivity|done].
  - cbn [index]. unfold to_bool. rewrite Hdisabled. cbn [negb].
    eexists. split; [reflexivity|done].
Qed.

Lemma OrthancPluginInitialize_root (configuration : gmap string json)
    (root : string) :
  host_version_ok host = true →
  effective_configuration host store = Some (JObject configuration) →
  isNull (member configuration "Enable") = false →
  asString valueToString (member configuration "Root") = Some root →
  ∃ plugin',
    OrthancPluginInitialize host store unloaded
    = (if invalid_root root then -1
       else if asBool (member configuration "ReplaceDefaultExplorer")
            is Some _ then 0 else -1,
       plugin')
    ∧ oe2BaseUrl_ plugin' = root
    ∧ if invalid_root root
      then restCallbacks plugin' = [] ∧ rootUri plugin' = None
      else rootUri plugin' = Some (root +:+ "app/")
           ∧ restCallbacks plugin'
             = ((if asBool (member configuration "ReplaceDefaultExplorer")
                 is Some true then [("/", RedirectRoot_callback)] else [])
                ++ reverse (routes root))%list.
Proof.
  intros Hversion Heff Henable Hroot.
  unfold OrthancPluginInitialize. rewrite Hversion. cbn [negb].
  destruct (ReadConfiguration_effective host store
              (set_description "Advanced User Interface for Orthanc" unloaded)
              _ Heff) as (p1 & Hread & Hcfg & Hurl & Hcb & Huri).
  unfold initialize. unfold mbind at 1. unfold Init_bind at 1.
  rewrite Hread. destruct p1 as [full pc pj url cbs ru descr].
  cbn in Hcfg, Hurl, Hcb, Huri. subst pj url cbs ru.
  step_init. cbn [index].
  unfold to_bool. rewrite Henable. cbn [negb].
  cbn -[touch member invalid_root String.append asBool asString].
  rewrite !member_touch, Hroot.
  cbn -[touch member invalid_root String.append asBool asString].
  destruct (invalid_root root).
  { eexists. split; [reflexivity|]. done. }
  cbn -[touch member invalid_root String.append asBool asString].
  rewrite !member_touch.
  destruct (asBool (member configuration "ReplaceDefaultExplorer"))
    as [[]|]; cbn -[touch member String.append];
    eexists; (split; [reflexivity|]); done.
Qed.

(** X16: the routes are registered all or none, and never under a
    malformed base URL.  Whatever the host and the embedded resources,
    initialization leaves the plugin either with no route and no root URI,
    or with a base URL that passed the validation, the root URI
    [<base>app/] and the six routes of the application under that base. *)
Theorem routes_all_or_none :
  let plugin := snd (OrthancPluginInitialize host store unloaded) in
  (restCallbacks plugin = [] ∧ rootUri plugin = None)
  ∨ (invalid_root (oe2BaseUrl_ plugin) = false
     ∧ rootUri plugin = Some (oe2BaseUrl_ plugin +:+ "app/")
     ∧ ∃ more,
         restCallbacks plugin
         = (more ++ reverse (routes (oe2BaseUrl_ plugin)))%list).
Proof.
  cbv zeta. destruct (host_version_ok host) eqn:Hversion.
  2: { left. unfold OrthancPluginInitialize. by rewrite Hversion. }
  assert (Hthrow :
    match effective_configuration host store with
    | None => True
    | Some JNull => False
    | Some (JObject m) =>
        isNull (member m "Enable") = false
        ∧ asString valueToString (member m "Root") = None
    | Some _ => True
    end →
    restCallbacks (snd (OrthancPluginInitialize host store unloaded)) = []
    ∧ rootUri (snd (OrthancPluginInitialize host store unloaded)) = None).
  { intros Hcases.
    destruct (OrthancPluginInitialize_early_throw Hversion Hcases)
      as (plugin' & -> & Hrest). exact Hrest. }
  assert (Hdisabled : ∀ configuration,
    effective_configuration host store = Some configuration →
    match configuration with
    | JNull => True
    | JObject m => isNull (member m "Enable") = true
    | _ => False
    end →
    restCallbacks (snd (OrthancPluginInitialize host store unloaded)) = []
    ∧ rootUri (snd (OrthancPluginInitialize host store unloaded)) = None).
  { intros configuration Heff Hcases.
    destruct (OrthancPluginInitialize_disabled configuration Hversion Heff
                Hcases) as (plugin' & -> & _ & Hrest). exact Hrest. }
  destruct (effective_configuration host store) as [configuration|] eqn:Heff;
    [|by left; apply Hthrow].
  destruct configuration as [| | | | | | |m];
    try (by left; apply Hthrow);
    try (by left; eapply Hdisabled).
  destruct (isNull (member m "Enable")) eqn:Henable;
    [by left; eapply Hdisabled|].
  destruct (asString valueToString (member m "Root")) as [root|] eqn:Hroot;
    [|by left; apply Hthrow].
  destruct (OrthancPluginInitialize_root m root Hversion Heff Henable Hroot)
    as (plugin' & -> & Hurl & Hrest).
  cbn [snd]. rewrite Hurl.
  destruct (invalid_root root); [by left|].
  right. destruct Hrest as [-> ->]. eauto.
Qed.

(** X17: the plugin is disabled exactly when the ["Enable"] member of its
    configuration is null or missing: initialization then returns 0 and
    registers nothing.  Any other value of ["Enable"], the Boolean [false]
    included, lets initialization go on to the base URL. *)
Theorem disabled_iff_Enable_null (configuration : gmap string json) :
  host_version_ok host = true →
  effective_configuration host store = Some (JObject configuration) →
  let result := OrthancPluginInitialize host store unloaded in
  (fst result = 0 ∧ restCallbacks (snd result) = [])
  ↔ isNull (member configuration "Enable") = true.
Proof.
  intros Hversion Heff. cbv zeta. split.
  - intros [Hcode Hnone].
    destruct (isNull (member configuration "Enable")) eqn:Henable; [done|].
    destruct (asString valueToString (member configuration "Root"))
      as [root|] eqn:Hroot.
    + destruct (OrthancPluginInitialize_root configuration root
                  Hversion Heff Henable Hroot)
        as (plugin' & Hinit & _ & Hrest).
      rewrite Hinit in Hcode, Hnone. cbn [fst snd] in Hcode, Hnone.
      destruct (invalid_root root); [done|].
      destruct Hrest as [_ Hcallbacks]. rewrite Hcallbacks in Hnone.
      by destruct (asBool _) as [[]|].
    + destruct OrthancPluginInitialize_early_throw
        as (plugin' & Hinit & _); [done|by rewrite Heff|].
      by rewrite Hinit in Hcode.
  - intros Henable.
    destruct (OrthancPluginInitialize_disabled (JObject configuration)
                Hversion Heff Henable) as (plugin' & -> & _ & Hnone & _).
    done.
Qed.

(** X18: nothing is rolled back.  When the base URL is valid and
    ["ReplaceDefaultExplorer"] does not convert to a Boolean (a string, an
    array or an object), initialization returns -1 although the six routes
    and the root URI have been registered. *)
Theorem failure_keeps_routes (configuration : gmap string json)
    (root : string) :
  host_version_ok host = true →
  effective_configuration host store = Some (JObject configuration) →
  isNull (member configuration "Enable") = false →
  asString valueToString (member configuration "Root") = Some root →
  invalid_root root = false →
  asBool (member configuration "ReplaceDefaultExplorer") = None →
  let result := OrthancPluginInitialize host store unloaded in
  fst result = -1
  ∧ restCallbacks (snd result) = reverse (routes root)
  ∧ rootUri (snd result) = Some (root +:+ "app/").
Proof.
  intros Hversion Heff Henable Hroot Hvalid Hreplace. cbv zeta.
  destruct (OrthancPluginInitialize_root configuration root
              Hversion Heff Henable Hroot) as (plugin' & -> & _ & Hrest).
  rewrite Hvalid, Hreplace in *. cbn [fst snd].
  by destruct Hrest as [-> ->].
Qed.

Lemma routes_not_redirect (root : string) :
  ("/", RedirectRoot_callback) ∉ reverse (routes root).
Proof.
  rewrite elem_of_reverse. unfold routes.
  rewrite !elem_of_cons, elem_of_nil.
  intros Hin. repeat destruct Hin as [Hin|Hin]; done.
Qed.

(** X19: when initialization succeeds with a valid base URL, the redirect
    of the host's root [/] is registered exactly when
    ["ReplaceDefaultExplorer"] converts to [true], and the target of that
    redirect is the root URI that was registered for the plugin. *)
Theorem redirect_registration (configuration : gmap string json)
    (root : string) (replace : bool) :
  host_version_ok host = true →
  effective_configuration host store = Some (JObject configuration) →
  isNull (member configuration "Enable") = false →
  asString valueToString (member configuration "Root") = Some root →
  invalid_root root = false →
  asBool (member configuration "ReplaceDefaultExplorer") = Some replace →
  let result := OrthancPluginInitialize host store unloaded in
  fst result = 0
  ∧ (("/", RedirectRoot_callback) ∈ restCallbacks (snd result)
     ↔ replace = true)
  ∧ ∃ target,
      rootUri (snd result) = Some target
      ∧ ∀ request,
          method request = OrthancPluginHttpMethod_Get →
          RedirectRoot (snd result) request = Redirect target.
Proof.
  intros Hversion Heff Henable Hroot Hvalid Hreplace. cbv zeta.
  destruct (OrthancPluginInitialize_root configuration root
              Hversion Heff Henable Hroot) as (plugin' & -> & Hurl & Hrest).
  rewrite Hvalid, Hreplace in *. cbn [fst snd].
  destruct Hrest as [Huri Hcallbacks]. split; [done|]. split.
  - rewrite Hcallbacks, elem_of_app.
    pose proof (routes_not_redirect root) as Hnot.
    destruct replace; cbn [app].
    + split; [done|]. intros _. left. apply list_elem_of_here.
    + split; [|done]. intros [Hin|Hin]; [by apply elem_of_nil in Hin|done].
  - exists (root +:+ "app/"). split; [done|]. intros request Hget.
    unfold RedirectRoot.
    by rewrite Hget, Hurl, bool_decide_eq_false_2 by (by intros []).
Qed.

(** X20: [ReadConfiguration] leaves, as the plugin's configuration, the
    embedded default section with the user's section merged over it: a key
    of the user's section holds the user's value (merged with the
    default's when both are objects), any other key keeps the default's
    value.  Without a user's section the default section is left as it
    is. *)
Theorem ReadConfiguration_merges (plugin : Plugin)
    (defaults section : gmap string json) :
  default_configuration store = JObject defaults →
  defaults !! "OrthancExplorer2" = Some (JObject section) →
  ∃ plugin' configuration,
    ReadConfiguration host store plugin = (inr (), plugin')
    ∧ orthancFullConfiguration_ plugin' = host_configuration host
    ∧ pluginJsonConfiguration_ plugin' = JObject configuration
    ∧ match host_configuration host !! "OrthancExplorer2" with
      | Some (JObject user) =>
          ∀ key, configuration !! key
                 = match user !! key with
                   | Some v => Some (merged_member (section !! key) v)
                   | None => section !! key
                   end
      | _ => configuration = section
      end.
Proof.
  intros Hdefault Hsection.
  unfold ReadConfiguration. step_init. rewrite Hdefault. cbn [index].
  unfold member at 1. rewrite Hsection. cbn [default from_option].
  unfold id. step_init. unfold IsSection, GetSection.
  destruct (host_configuration host !! "OrthancExplorer2")
    as [[| | | | | | |user]|]; step_init;
    try (eexists _, section; repeat split; reflexivity).
  rewrite MergeJson_unfold. eexists _, _. split; [reflexivity|].
  split; [reflexivity|]. split; [reflexivity|].
  apply MergeJson_fold_lookup.
Qed.

End initialization_properties.

Lemma disabled_iff_Enable_null_witness :
  let result :=
    OrthancPluginInitialize (host_with_section {[ "Enable" := JBool false ]})
      sample_store unloaded in
  ¬ (fst result = 0 ∧ restCallbacks (snd result) = []).
Proof.
  intros result Hdisabled.
  apply (disabled_iff_Enable_null
           (host_with_section {[ "Enable" := JBool false ]}) sample_store
           {[ "Root" := JString "/ui/"; "Enable" := JBool false;
              "UiOptions" := JObject {[ "a" := JInt 1 ]} ]}) in Hdisabled.
  - vm_compute in Hdisabled. discriminate Hdisabled.
  - reflexivity.
  - vm_compute. reflexivity.
Defined.

Lemma failure_keeps_routes_witness :
  let result :=
    OrthancPluginInitialize
      (host_with_section {[ "ReplaceDefaultExplorer" := JString "yes" ]})
      sample_store unloaded in
  fst result = -1
  ∧ restCallbacks (snd result) = reverse (routes "/ui/")
  ∧ rootUri (snd result) = Some "/ui/app/".
Proof.
  apply (failure_keeps_routes
           (host_with_section {[ "ReplaceDefaultExplorer" := JString "yes" ]})
           sample_store
           {[ "Root" := JString "/ui/"; "Enable" := JBool true;
              "UiOptions" := JObject {[ "a" := JInt 1 ]};
              "ReplaceDefaultExplorer" := JString "yes" ]} "/ui/").
  - reflexivity.
  - vm_compute. reflexivity.
  - vm_compute. reflexivity.
  - vm_compute. reflexivity.
  - vm_compute. reflexivity.
  - vm_compute. reflexivity.
Defined.

Lemma redirect_registration_witness :
  let result :=
    OrthancPluginInitialize
      (host_with_section {[ "ReplaceDefaultExplorer" := JBool true ]})
      sample_store unloaded in
  fst result = 0
  ∧ ("/", RedirectRoot_callback) ∈ restCallbacks (snd result).
Proof.
  pose proof (redirect_registration
                (host_with_section
                   {[ "ReplaceDefaultExplorer" := JBool true ]})
                sample_store
                {[ "Root" := JString "/ui/"; "Enable" := JBool true;
                   "UiOptions" := JObject {[ "a" := JInt 1 ]};
                   "ReplaceDefaultExplorer" := JBool true ]} "/ui/" true)
    as Hredirect.
  destruct Hredirect as (Hcode & Hiff & _).
  - reflexivity.
  - vm_compute. reflexivity.
  - vm_compute. reflexivity.
  - vm_compute. reflexivity.
  - vm_compute. reflexivity.
  - vm_compute. reflexivity.
  - split; [exact Hcode|]. apply Hiff. reflexivity.
Defined.

Lemma ReadConfiguration_merges_witness :
  ∃ plugin' configuration,
    ReadConfiguration sample_host sample_store unloaded = (inr (), plugin')
    ∧ pluginJsonConfiguration_ plugin' = JObject configuration
    ∧ configuration !! "Root" = Some (JString "/ui/")
    ∧ configuration !! "UiOptions"
      = Some (JObject {[ "a" := JInt 1; "b" := JInt 2 ]}).
Proof.
  pose proof (ReadConfiguration_merges sample_host sample_store unloaded
                {[ "OrthancExplorer2" := sample_default ]}
                {[ "Root" := JString "/ui/"; "Enable" := JBool true;
                   "UiOptions" := JObject {[ "a" := JInt 1 ]} ]}
                eq_refl) as Hmerge.
  destruct Hmerge as (plugin' & configuration & Hread & _ & Hjson & Hkeys).
  - vm_compute. reflexivity.
  - exists plugin', configuration. split; [exact Hread|].
    split; [exact Hjson|].
    change (host_configuration sample_host !! "OrthancExplorer2")
      with (Some sample_override) in Hkeys.
    cbn [sample_override] in Hkeys. split.
    + rewrite (Hkeys "Root"). vm_compute. reflexivity.
    + rewrite (Hkeys "UiOptions"). vm_compute. reflexivity.
Defined.
